(** * AI-Code-Detector: the heuristic core, embedded and verified

    The development follows the TypeScript sources of the three engines
    (detectionEngine, patternAnalyzer, suggestionGenerator) and of the
    coordinator (codeAnalysisService):

    - a JavaScript string is the sequence of its UTF-16 code units;
    - a JavaScript number is an IEEE-754 binary64 value (the primitive
      floats of Rocq), so that 0/0 is NaN and comparisons with NaN fail,
      exactly as they do in the engine on inputs without any non-blank line;
    - a regular expression literal is a term of [regex], run by a
      backtracking matcher with the priorities of the ECMAScript one;
    - a thrown exception is the [Throw] case of [completion]. *)

From Stdlib Require Import List Bool Arith ZArith NArith Lia String Ascii.
From Stdlib Require Import Floats.
Import ListNotations.

Set Warnings "-inexact-float".

(* ================================================================== *)
(** * JavaScript strings *)
(* ================================================================== *)

(** A string value: its UTF-16 code units, in order. *)
Definition jsstring : Type := list N.

(** A source-text literal (ASCII) as a string value. *)
Definition u16 (s : string) : jsstring :=
  map N_of_ascii (list_ascii_of_string s).

Module JsString.

Definition length (s : jsstring) : nat := List.length s.

(** Code units of ECMAScript LineTerminator. *)
Definition isLineTerminator (c : N) : bool :=
  ((c =? 10) || (c =? 13) || (c =? 8232) || (c =? 8233))%N.

(** Code units of ECMAScript WhiteSpace or LineTerminator: what
    [String.prototype.trim] strips and what the escape \s matches. *)
Definition isWhiteSpace (c : N) : bool :=
  ((c =? 9) || (c =? 11) || (c =? 12) || (c =? 32) || (c =? 160)
   || (c =? 5760) || ((8192 <=? c) && (c <=? 8202))
   || (c =? 8239) || (c =? 8287) || (c =? 12288) || (c =? 65279))%N
  || isLineTerminator c.

Fixpoint trimStart (s : jsstring) : jsstring :=
  match s with
  | c :: s' => if isWhiteSpace c then trimStart s' else s
  | [] => []
  end.

Definition trimEnd (s : jsstring) : jsstring := rev (trimStart (rev s)).

Definition trim (s : jsstring) : jsstring := trimEnd (trimStart s).

Fixpoint eqb (a b : jsstring) : bool :=
  match a, b with
  | [], [] => true
  | x :: a', y :: b' => (x =? y)%N && eqb a' b'
  | _, _ => false
  end.

Fixpoint startsWith (s prefix : jsstring) : bool :=
  match prefix, s with
  | [], _ => true
  | p :: prefix', c :: s' => (c =? p)%N && startsWith s' prefix'
  | _ :: _, [] => false
  end.

Fixpoint includes (s sub : jsstring) : bool :=
  startsWith s sub ||
  match s with
  | _ :: s' => includes s' sub
  | [] => false
  end.

(** [s.split('\n')]: never empty; the empty string gives one empty line. *)
Fixpoint split_nl (s : jsstring) : list jsstring :=
  match s with
  | [] => [[]]
  | c :: s' =>
      if (c =? 10)%N then [] :: split_nl s'
      else match split_nl s' with
           | l :: ls => (c :: l) :: ls
           | [] => [[c]]
           end
  end.

(** [lines.join('\n')], the inverse of [split_nl] on lines without a
    line feed; used to write multi-line inputs. *)
Fixpoint join_nl (ls : list jsstring) : jsstring :=
  match ls with
  | [] => []
  | [l] => l
  | l :: ls' => l ++ 10%N :: join_nl ls'
  end.

End JsString.


(* ================================================================== *)
(** * Regular expressions *)
(* ================================================================== *)

Module JsRegExp.

(** The fragment of ECMAScript patterns the engines use.  Every quantifier
    of the sources applies to a single character class, so [Repeat] takes
    a class: [Repeat p lo hi] is the greedy quantifier with at least [lo]
    and at most [hi] repetitions ([None]: unbounded).  Groups only group:
    no engine reads a capture other than the whole match. *)
Inductive regex : Type :=
| Empty
| Char (c : N)
| Class (p : N -> bool)
| Repeat (p : N -> bool) (lo : nat) (hi : option nat)
| Seq (r1 r2 : regex)
| Alt (r1 r2 : regex)
| AssertStart
| AssertEnd
| WordBoundary.

(** ** Character classes *)

Definition inRange (lo hi c : N) : bool := ((lo <=? c) && (c <=? hi))%N.

Definition lower : N -> bool := inRange 97 122.
Definition upper : N -> bool := inRange 65 90.
Definition digit : N -> bool := inRange 48 57.
Definition alpha (c : N) : bool := lower c || upper c.
Definition alnum (c : N) : bool := alpha c || digit c.
(** The escape \w *)
Definition word (c : N) : bool := alnum c || (c =? 95)%N.
(** The escape \s *)
Definition space : N -> bool := JsString.isWhiteSpace.
(** The dot: any code unit but a line terminator (no s flag is used). *)
Definition dot (c : N) : bool := negb (JsString.isLineTerminator c).
Definition oneOf (l : list N) (c : N) : bool := existsb (N.eqb c) l.
Definition noneOf (l : list N) (c : N) : bool := negb (oneOf l c).

(** ** Pattern syntax *)

Definition star (p : N -> bool) : regex := Repeat p 0 None.
Definition plus (p : N -> bool) : regex := Repeat p 1 None.
Definition atLeast (n : nat) (p : N -> bool) : regex := Repeat p n None.
Definition between (lo hi : nat) (p : N -> bool) : regex :=
  Repeat p lo (Some hi).

Fixpoint chars (l : list N) : regex :=
  match l with
  | [] => Empty
  | [c] => Char c
  | c :: l' => Seq (Char c) (chars l')
  end.

(** A run of literal characters. *)
Definition Str (s : string) : regex := chars (u16 s).

Fixpoint seqs (l : list regex) : regex :=
  match l with
  | [] => Empty
  | [r] => r
  | r :: l' => Seq r (seqs l')
  end.

(** ** Matching *)

(** Canonicalize of the i flag (no u flag).  A code unit above 127 never
    canonicalizes to an ASCII one, and every letter the sources write under
    the i flag is ASCII, so only the ASCII letters need their upper case. *)
Definition canonicalize (c : N) : N :=
  if lower c then (c - 32)%N else c.

Definition charEq (ignoreCase : bool) (a b : N) : bool :=
  if ignoreCase then (canonicalize a =? canonicalize b)%N else (a =? b)%N.

Definition isWordChar (c : option N) : bool :=
  match c with
  | Some x => word x
  | None => false
  end.

(** A continuation receives the code unit before the current position
    (none at the start of the input) and the rest of the input; it answers
    with the rest of the input after the whole match. *)
Definition Cont : Type := option N -> jsstring -> option jsstring.

Fixpoint repeatMatcher (p : N -> bool) (lo : nat) (hi : option nat)
    (prev : option N) (s : jsstring) (k : Cont) {struct s} : option jsstring :=
  let stop := match lo with O => k prev s | S _ => None end in
  match s with
  | c :: s' =>
      if p c && match hi with Some O => false | _ => true end
      then match repeatMatcher p (pred lo) (option_map pred hi) (Some c) s' k with
           | Some r => Some r
           | None => stop
           end
      else stop
  | [] => stop
  end.

Fixpoint matcher (ignoreCase : bool) (r : regex)
    (prev : option N) (s : jsstring) (k : Cont) {struct r} : option jsstring :=
  match r with
  | Empty => k prev s
  | Char c =>
      match s with
      | x :: s' => if charEq ignoreCase c x then k (Some x) s' else None
      | [] => None
      end
  | Class p =>
      match s with
      | x :: s' => if p x then k (Some x) s' else None
      | [] => None
      end
  | Repeat p lo hi => repeatMatcher p lo hi prev s k
  | Seq r1 r2 =>
      matcher ignoreCase r1 prev s
        (fun prev' s' => matcher ignoreCase r2 prev' s' k)
  | Alt r1 r2 =>
      match matcher ignoreCase r1 prev s k with
      | Some rest => Some rest
      | None => matcher ignoreCase r2 prev s k
      end
  | AssertStart =>
      match prev with
      | None => k prev s
      | Some _ => None
      end
  | AssertEnd =>
      match s with
      | [] => k prev s
      | _ :: _ => None
      end
  | WordBoundary =>
      if xorb (isWordChar prev) (isWordChar (hd_error s))
      then k prev s else None
  end.

(** A match attempt at the current position: the rest after the match. *)
Definition matchAt (ignoreCase : bool) (r : regex)
    (prev : option N) (s : jsstring) : option jsstring :=
  matcher ignoreCase r prev s (fun _ rest => Some rest).

(** The text matched, given the input at the match start and its rest. *)
Definition matched (s rest : jsstring) : jsstring :=
  firstn (List.length s - List.length rest) s.

(** The leftmost match from the current position on: the matched text. *)
Fixpoint searchFrom (ignoreCase : bool) (r : regex)
    (prev : option N) (s : jsstring) : option jsstring :=
  match matchAt ignoreCase r prev s with
  | Some rest => Some (matched s rest)
  | None =>
      match s with
      | c :: s' => searchFrom ignoreCase r (Some c) s'
      | [] => None
      end
  end.

(** [str.match(re)] without the g flag: the whole match, or null. *)
Definition exec (ignoreCase : bool) (r : regex) (s : jsstring)
  : option jsstring :=
  searchFrom ignoreCase r None s.

(** [re.test(str)] on a regular expression whose lastIndex is 0, as it is
    for each literal of the sources: a literal is evaluated to a fresh
    object on every call. *)
Definition test (ignoreCase : bool) (r : regex) (s : jsstring) : bool :=
  match exec ignoreCase r s with
  | Some _ => true
  | None => false
  end.

(** The successive matches of a g-flagged expression; [skip] counts the
    code units still covered by the previous match.  After an empty match
    the next attempt starts one code unit further. *)
Fixpoint matchesFrom (ignoreCase : bool) (r : regex)
    (prev : option N) (s : jsstring) (skip : nat) {struct s} : list jsstring :=
  match s with
  | [] =>
      match skip with
      | O => match matchAt ignoreCase r prev [] with
             | Some _ => [[]]
             | None => []
             end
      | S _ => []
      end
  | c :: s' =>
      match skip with
      | S n => matchesFrom ignoreCase r (Some c) s' n
      | O =>
          match matchAt ignoreCase r prev s with
          | Some rest =>
              let m := matched s rest in
              m :: matchesFrom ignoreCase r (Some c) s' (pred (List.length m))
          | None => matchesFrom ignoreCase r (Some c) s' 0
          end
      end
  end.

(** [Array.from(str.matchAll(re))], whole matches only. *)
Definition matchAll (ignoreCase : bool) (r : regex) (s : jsstring)
  : list jsstring :=
  matchesFrom ignoreCase r None s 0.

(** [str.match(re)] with the g flag: null when nothing matches. *)
Definition matchGlobal (ignoreCase : bool) (r : regex) (s : jsstring)
  : option (list jsstring) :=
  match matchAll ignoreCase r s with
  | [] => None
  | ms => Some ms
  end.

End JsRegExp.

Import JsRegExp.

(* ================================================================== *)
(** * JavaScript numbers *)
(* ================================================================== *)

Module JsNumber.

Local Open Scope float_scope.

(** The Number value of an integer: the nearest binary64, exact below 2^53
    (every length and count of the engines is). *)
Definition ofZ (z : Z) : float :=
  SF2Prim (binary_normalize prec emax z 0 false).

Definition ofNat (n : nat) : float := ofZ (Z.of_nat n).

(** The relational operators on numbers: false as soon as one is NaN. *)
Definition lt (a b : float) : bool := a <? b.
Definition gt (a b : float) : bool := b <? a.
Definition le (a b : float) : bool := a <=? b.
Definition ge (a b : float) : bool := b <=? a.

(** [Math.max] and [Math.min] of two numbers: NaN if one is NaN, and
    +0 above -0. *)
Definition Math_max (a b : float) : float :=
  if is_nan a || is_nan b then nan
  else if a <? b then b
  else if b <? a then a
  else if get_sign a then b else a.

Definition Math_min (a b : float) : float :=
  if is_nan a || is_nan b then nan
  else if a <? b then a
  else if b <? a then b
  else if get_sign a then a else b.

Definition Math_sqrt (x : float) : float := sqrt x.

(** [Math.pow(x, 2)]: the engines raise to the power 2 only, where the
    result is the correctly rounded square. *)
Definition Math_pow2 (x : float) : float := x * x.

(** [Math.round]: the nearest integer, a tie going up; NaN, the
    infinities and the zeros are returned as they are, and a result that
    is zero keeps the sign of a negative argument. *)
Definition Math_round (x : float) : float :=
  match Prim2SF x with
  | S754_finite s m e =>
      if (0 <=? e)%Z then x
      else
        let sm := if s then Z.neg m else Z.pos m in
        let n := ((2 * sm + 2 ^ (- e)) / 2 ^ (1 - e))%Z in
        if (n =? 0)%Z && s then neg_zero else ofZ n
  | _ => x
  end.

(** [Math.round(x * 100) / 100] *)
Definition round2 (x : float) : float := Math_round (x * 100) / 100.

(** [values.reduce((sum, v) => sum + v, 0)] *)
Definition sum (l : list float) : float :=
  fold_left (fun acc v => acc + v) l 0.

End JsNumber.

Import JsNumber.

(** [x || []] on the result of a g-flagged [match]. *)
Definition orEmpty (m : option (list jsstring)) : list jsstring :=
  match m with
  | Some l => l
  | None => []
  end.

(** [line.trim().length > 0] *)
Definition nonBlank (line : jsstring) : bool :=
  (0 <? JsString.length (JsString.trim line))%nat.

(* ================================================================== *)
(** * services/detectionEngine.ts *)
(* ================================================================== *)

Module DetectionEngine.

Local Open Scope float_scope.

Record Scores : Type := {
  commentDensity : float;
  codeStructureScore : float;
  namingPatternScore : float;
  complexityScore : float;
  uniformityScore : float
}.

Record DetectionResult : Type := {
  aiProbability : float;
  detectionMethod : string;
  confidenceScore : float;
  analysisDetails : Scores
}.

(** The filter of [calculateCommentDensity]. *)
Definition isCommentLine (line : jsstring) : bool :=
  let trimmed := JsString.trim line in
  JsString.startsWith trimmed (u16 "//")
  || JsString.startsWith trimmed (u16 "/*")
  || JsString.startsWith trimmed (u16 "*")
  || JsString.startsWith trimmed (u16 "#").

Definition calculateCommentDensity (code : jsstring) : float :=
  let lines := JsString.split_nl code in
  let commentLines := List.length (filter isCommentLine lines) in
  let totalLines := List.length (filter nonBlank lines) in
  if (totalLines =? 0)%nat then 0
  else
    let density := (ofNat commentLines / ofNat totalLines) * 100 in
    if gt density 30 then 75 else if lt density 5 then 20 else 50.

(** Start of input, then the longest run of white space; the only group
    of the source pattern is the whole match. *)
Definition indentationPattern : regex := Seq AssertStart (star space).

Definition checkIndentation (code : jsstring) : bool :=
  let lines := filter nonBlank (JsString.split_nl code) in
  let indents :=
    map (fun line =>
           match exec false indentationPattern line with
           | Some m => JsString.length m
           | None => 0%nat
           end) lines in
  let uniqueIndents := nodup Nat.eq_dec (filter (fun i => (0 <? i)%nat) indents) in
  (List.length uniqueIndents <=? 6)%nat.

Definition properSpacingPatterns : list regex :=
  [ seqs [star space; Str "="; star space];
    seqs [star space; Str "+"; star space];
    seqs [star space; Str "-"; star space];
    seqs [star space; Str "*"; star space];
    seqs [Str "{"; star space; AssertEnd];
    seqs [Str "}"; star space; AssertEnd] ].

Definition checkSpacing (code : jsstring) : bool :=
  let matchCount :=
    fold_left (fun matchCount pattern =>
                 if test false pattern code then S matchCount else matchCount)
              properSpacingPatterns 0%nat in
  (3 <=? matchCount)%nat.

(** function\s+\w+ *)
Definition functionDecl : regex := seqs [Str "function"; plus space; plus word].
(** const\s+\w+\s*=\s*\( : an arrow or function expression bound by const *)
Definition constArrow : regex :=
  seqs [Str "const"; plus space; plus word; star space; Str "=";
        star space; Str "("].
(** class\s+\w+ *)
Definition classDecl : regex := seqs [Str "class"; plus space; plus word].

Definition checkLogicalBlocks (code : jsstring) : bool :=
  let functionPattern := Alt functionDecl (Alt constArrow classDecl) in
  match matchGlobal false functionPattern code with
  | Some matches => (1 <=? List.length matches)%nat
  | None => false
  end.

Definition analyzeCodeStructure (code : jsstring) : float :=
  let hasConsistentIndentation := checkIndentation code in
  let hasProperSpacing := checkSpacing code in
  let hasLogicalBlocks := checkLogicalBlocks code in
  let structureScore :=
    (if hasConsistentIndentation then 33 else 0)
    + (if hasProperSpacing then 33 else 0)
    + (if hasLogicalBlocks then 34 else 0) in
  if gt structureScore 80 then 70 else if lt structureScore 40 then 30 else 50.

Definition analyzeNamingPatterns (code : jsstring) : float :=
  let camelCasePattern :=
    seqs [WordBoundary; Class lower; star alnum; WordBoundary] in
  let descriptiveNamePattern :=
    seqs [WordBoundary; atLeast 4 lower; Class upper; plus lower; WordBoundary] in
  let camelCaseMatches := orEmpty (matchGlobal false camelCasePattern code) in
  let descriptiveMatches := orEmpty (matchGlobal false descriptiveNamePattern code) in
  let namingScore :=
    Math_min
      ((ofNat (List.length descriptiveMatches)
        / Math_max (ofNat (List.length camelCaseMatches)) 1) * 100)
      100 in
  if gt namingScore 40 then 65 else if lt namingScore 10 then 35 else 50.

Definition controlFlowKeywords : list string :=
  ["if"; "else"; "for"; "while"; "switch"; "case"]%string.

Definition analyzeComplexity (code : jsstring) : float :=
  let lines := filter nonBlank (JsString.split_nl code) in
  let avgLineLength :=
    fold_left (fun sum line => sum + ofNat (JsString.length line)) lines 0
    / ofNat (List.length lines) in
  let controlFlowCount :=
    fold_left (fun controlFlowCount keyword =>
                 let regex := seqs [WordBoundary; Str keyword; WordBoundary] in
                 match matchGlobal false regex code with
                 | Some matches => (controlFlowCount + List.length matches)%nat
                 | None => controlFlowCount
                 end)
              controlFlowKeywords 0%nat in
  let complexityRatio := ofNat controlFlowCount / ofNat (List.length lines) in
  if gt avgLineLength 80 && gt complexityRatio 0.2 then 70
  else if lt avgLineLength 30 && lt complexityRatio 0.1 then 40
  else 55.

Definition analyzeUniformity (code : jsstring) : float :=
  let lines := filter nonBlank (JsString.split_nl code) in
  let lineLengths := map (fun line => ofNat (JsString.length line)) lines in
  let avg :=
    fold_left (fun sum len => sum + len) lineLengths 0
    / ofNat (List.length lineLengths) in
  let variance :=
    fold_left (fun sum len => sum + Math_pow2 (len - avg)) lineLengths 0
    / ofNat (List.length lineLengths) in
  let stdDev := Math_sqrt variance in
  let uniformityScore :=
    if lt stdDev 20 then 75 else if gt stdDev 50 then 40 else 55 in
  uniformityScore.

(** The local [probability] of [calculateAIProbability], before the clamp. *)
Definition weightedSum (scores : Scores) : float :=
  commentDensity scores * 0.15
  + codeStructureScore scores * 0.25
  + namingPatternScore scores * 0.20
  + complexityScore scores * 0.20
  + uniformityScore scores * 0.20.

Definition calculateAIProbability (scores : Scores) : float :=
  let probability := weightedSum scores in
  Math_max 0 (Math_min 100 probability).

(** [Object.values(scores)]: the properties in their creation order. *)
Definition values (scores : Scores) : list float :=
  [ commentDensity scores; codeStructureScore scores;
    namingPatternScore scores; complexityScore scores;
    uniformityScore scores ].

Definition calculateConfidence (scores : Scores) : float :=
  let values := values scores in
  let avg :=
    fold_left (fun sum val => sum + val) values 0
    / ofNat (List.length values) in
  let variance :=
    fold_left (fun sum val => sum + Math_pow2 (val - avg)) values 0
    / ofNat (List.length values) in
  let stdDev := Math_sqrt variance in
  let confidence := 100 - stdDev * 1.5 in
  Math_max 50 (Math_min 100 confidence).

(** The five extractors, in the order [analyzeCode] calls them. *)
Definition extract (code : jsstring) : Scores :=
  {| commentDensity := calculateCommentDensity code;
     codeStructureScore := analyzeCodeStructure code;
     namingPatternScore := analyzeNamingPatterns code;
     complexityScore := analyzeComplexity code;
     uniformityScore := analyzeUniformity code |}.

Definition analyzeCode (code : jsstring) (language : jsstring) : DetectionResult :=
  let scores := extract code in
  let aiProbability := calculateAIProbability scores in
  let confidenceScore := calculateConfidence scores in
  {| aiProbability := round2 aiProbability;
     detectionMethod := "hybrid-analysis";
     confidenceScore := round2 confidenceScore;
     analysisDetails :=
       {| commentDensity := round2 (commentDensity scores);
          codeStructureScore := round2 (codeStructureScore scores);
          namingPatternScore := round2 (namingPatternScore scores);
          complexityScore := round2 (complexityScore scores);
          uniformityScore := round2 (uniformityScore scores) |} |}.

End DetectionEngine.

(** [array.map((_, idx) => f idx)] and [array.forEach((x, idx) => ...)]
    visit the elements with their zero-based index. *)
Fixpoint indexedFrom {A : Type} (idx : nat) (l : list A) : list (A * nat) :=
  match l with
  | [] => []
  | x :: l' => (x, idx) :: indexedFrom (S idx) l'
  end.

Definition indexed {A : Type} (l : list A) : list (A * nat) := indexedFrom 0 l.

(** [for (let i = from; i <= to; i++) out.push(i)] *)
Definition pushRange (from to : nat) (out : list nat) : list nat :=
  out ++ seq from (S to - from).

(* ================================================================== *)
(** * services/patternAnalyzer.ts *)
(* ================================================================== *)

Module PatternAnalyzer.

Local Open Scope string_scope.
Local Open Scope list_scope.
Local Open Scope nat_scope.

Inductive Severity : Type := high | medium | low.

Record CodePattern : Type := {
  patternType : string;
  patternName : string;
  severity : Severity;
  description : string;
  lineNumbers : list nat
}.

(** The filter of the excessive-comments rule. *)
Definition isSlashComment (line : jsstring) : bool :=
  let trimmed := JsString.trim line in
  JsString.startsWith trimmed (u16 "//")
  || JsString.startsWith trimmed (u16 "/*").

(** The callback of [lines.every] in the perfect-formatting rule. *)
Definition evenIndent (line : jsstring) : bool :=
  if (JsString.length (JsString.trim line) =? 0)%nat then true
  else
    let spaces :=
      match exec false (Seq AssertStart (star space)) line with
      | Some m => JsString.length m
      | None => 0%nat
      end in
    (spaces mod 2 =? 0)%nat.

(** (?:const|let|var)\s+([a-z][a-zA-Z]{8,}) *)
Definition descriptiveVarPattern : regex :=
  seqs [Alt (Str "const") (Alt (Str "let") (Str "var")); plus space;
        Class lower; atLeast 8 alpha].

Definition detectAIPatterns (code : jsstring) : list CodePattern :=
  let patterns : list CodePattern := [] in
  let lines := JsString.split_nl code in
  let excessiveCommenting := filter isSlashComment lines in
  let patterns :=
    if gt (ofNat (List.length excessiveCommenting))
          (ofNat (List.length lines) * 0.3)%float
    then patterns ++
         [ {| patternType := "ai-indicator";
              patternName := "Excessive Comments";
              severity := medium;
              description := "High comment density may indicate AI-generated code";
              lineNumbers := map (fun '(_, idx) => idx + 1) (indexed excessiveCommenting) |} ]
    else patterns in
  let perfectIndentation := forallb evenIndent lines in
  let patterns :=
    if perfectIndentation && (10 <? List.length lines)
    then patterns ++
         [ {| patternType := "ai-indicator";
              patternName := "Perfect Formatting";
              severity := low;
              description := "Consistently perfect formatting across all lines";
              lineNumbers := [] |} ]
    else patterns in
  let matches := matchAll false descriptiveVarPattern code in
  let patterns :=
    if 5 <? List.length matches
    then patterns ++
         [ {| patternType := "ai-indicator";
              patternName := "Overly Descriptive Names";
              severity := low;
              description := "Variable names are unusually descriptive and verbose";
              lineNumbers := [] |} ]
    else patterns in
  patterns.

(** \w+\+\w+|\w+\-\w+|\w+=\w+ *)
Definition inconsistentSpacing : regex :=
  Alt (seqs [plus word; Str "+"; plus word])
      (Alt (seqs [plus word; Str "-"; plus word])
           (seqs [plus word; Str "="; plus word])).

Definition detectStylePatterns (code : jsstring) : list CodePattern :=
  let patterns : list CodePattern := [] in
  let lines := JsString.split_nl code in
  let longLines :=
    filter (fun '(line, idx) => 120 <? JsString.length line)
           (map (fun '(line, idx) => (line, idx + 1)) (indexed lines)) in
  let patterns :=
    if 0 <? List.length longLines
    then patterns ++
         [ {| patternType := "style";
              patternName := "Long Lines";
              severity := low;
              description := "Lines exceed recommended length of 120 characters";
              lineNumbers := map (fun '(_, idx) => idx) longLines |} ]
    else patterns in
  let patterns :=
    if test false inconsistentSpacing code
    then patterns ++
         [ {| patternType := "style";
              patternName := "Inconsistent Spacing";
              severity := low;
              description := "Operators lack proper spacing";
              lineNumbers := [] |} ]
    else patterns in
  patterns.

(** The header test of the long-function scan:
    function\s+\w+ or const\s+\w+\s*=\s*\( , without the g flag. *)
Definition functionHeader : regex :=
  Alt DetectionEngine.functionDecl DetectionEngine.constArrow.

(** The variables of [findLongFunctions] that its loop body updates. *)
Record Scan : Type := {
  lineNumbersOut : list nat;
  inFunction : bool;
  functionStart : nat;
  braceCount : Z
}.

(** [(line.match(/\{/g) || []).length] and its closing counterpart. *)
Definition openBraces (line : jsstring) : nat :=
  List.length (orEmpty (matchGlobal false (Str "{") line)).

Definition closeBraces (line : jsstring) : nat :=
  List.length (orEmpty (matchGlobal false (Str "}") line)).

(** The header test on the trimmed line. *)
Definition isHeader (line : jsstring) : bool :=
  test false functionHeader (JsString.trim line).

(** One call of the [forEach] callback of [findLongFunctions]. *)
Definition scanLine (st : Scan) (line : jsstring) (idx : nat) : Scan :=
  let trimmed := JsString.trim line in
  let st :=
    if isHeader line
    then {| lineNumbersOut := lineNumbersOut st;
            inFunction := true;
            functionStart := idx + 1;
            braceCount := 0 |}
    else st in
  if inFunction st then
    let braceCount :=
      (braceCount st + Z.of_nat (openBraces line)
       - Z.of_nat (closeBraces line))%Z in
    if (braceCount =? 0)%Z && JsString.includes trimmed (u16 "}") then
      let functionLength :=
        (Z.of_nat idx - Z.of_nat (functionStart st) + 2)%Z in
      {| lineNumbersOut :=
           if (50 <? functionLength)%Z
           then pushRange (functionStart st) (idx + 1) (lineNumbersOut st)
           else lineNumbersOut st;
         inFunction := false;
         functionStart := functionStart st;
         braceCount := braceCount |}
    else
      {| lineNumbersOut := lineNumbersOut st;
         inFunction := true;
         functionStart := functionStart st;
         braceCount := braceCount |}
  else st.

Fixpoint scanLines (st : Scan) (idx : nat) (lines : list jsstring) : Scan :=
  match lines with
  | [] => st
  | line :: rest => scanLines (scanLine st line idx) (S idx) rest
  end.

Definition findLongFunctions (lines : list jsstring) : list nat :=
  lineNumbersOut
    (scanLines {| lineNumbersOut := []; inFunction := false;
                  functionStart := 0; braceCount := 0 |} 0 lines).

(** \{\s*if|if.*\{\s*if|for.*\{\s*for *)
Definition nestedBlocksPattern : regex :=
  Alt (seqs [Str "{"; star space; Str "if"])
      (Alt (seqs [Str "if"; star dot; Str "{"; star space; Str "if"])
           (seqs [Str "for"; star dot; Str "{"; star space; Str "for"])).

Definition detectComplexityPatterns (code : jsstring) : list CodePattern :=
  let patterns : list CodePattern := [] in
  let lines := JsString.split_nl code in
  let nestedBlocks := matchGlobal false nestedBlocksPattern code in
  let patterns :=
    match nestedBlocks with
    | Some found =>
        if 3 <? List.length found
        then patterns ++
             [ {| patternType := "complexity";
                  patternName := "Deep Nesting";
                  severity := high;
                  description := "Multiple levels of nested blocks increase complexity";
                  lineNumbers := [] |} ]
        else patterns
    | None => patterns
    end in
  let functions := matchGlobal false functionHeader code in
  let patterns :=
    match functions with
    | Some found =>
        if 10 <? List.length found
        then patterns ++
             [ {| patternType := "complexity";
                  patternName := "Many Functions";
                  severity := medium;
                  description := "File contains many functions, consider splitting into modules";
                  lineNumbers := [] |} ]
        else patterns
    | None => patterns
    end in
  let longFunction := findLongFunctions lines in
  let patterns :=
    if 0 <? List.length longFunction
    then patterns ++
         [ {| patternType := "complexity";
              patternName := "Long Function";
              severity := medium;
              description := "Function exceeds 50 lines, consider refactoring";
              lineNumbers := longFunction |} ]
    else patterns in
  patterns.

(** The members of the quote class: the apostrophe and the double quote. *)
Definition quotes : list N := [39%N; 34%N].

(** The credential names of the pattern analyzer:
    password, secret, apikey or token. *)
Definition secretNames : regex :=
  Alt (Str "password") (Alt (Str "secret") (Alt (Str "apikey") (Str "token"))).

(** A quoted literal assigned: white space, the equals sign, white space,
    a quote, at least one code unit that is no quote, a quote. *)
Definition assignedLiteral : regex :=
  seqs [star space; Str "="; star space;
        Class (oneOf quotes); plus (noneOf quotes); Class (oneOf quotes)].

Definition hardcodedSecrets : regex := Seq secretNames assignedLiteral.

(** A quote, + identifier +, a quote, then on the same line one of
    SELECT, INSERT, UPDATE, DELETE. *)
Definition sqlInjection : regex :=
  seqs [Class (oneOf quotes); star space; Str "+"; star space; plus word;
        star space; Str "+"; star space; Class (oneOf quotes); star dot;
        Alt (Str "SELECT") (Alt (Str "INSERT") (Alt (Str "UPDATE") (Str "DELETE")))].

(** eval\s*\( *)
Definition evalUsage : regex := seqs [Str "eval"; star space; Str "("].

Definition detectSecurityPatterns (code : jsstring) : list CodePattern :=
  let patterns : list CodePattern := [] in
  let patterns :=
    if test true hardcodedSecrets code
    then patterns ++
         [ {| patternType := "security";
              patternName := "Hardcoded Credentials";
              severity := high;
              description := "Potential hardcoded credentials detected";
              lineNumbers := [] |} ]
    else patterns in
  let patterns :=
    if test true sqlInjection code
    then patterns ++
         [ {| patternType := "security";
              patternName := "SQL Injection Risk";
              severity := high;
              description := "String concatenation in SQL queries detected";
              lineNumbers := [] |} ]
    else patterns in
  let patterns :=
    if test false evalUsage code
    then patterns ++
         [ {| patternType := "security";
              patternName := "Eval Usage";
              severity := high;
              description := "Use of eval() is a security risk";
              lineNumbers := [] |} ]
    else patterns in
  patterns.

Definition detectPatterns (code : jsstring) (language : jsstring) : list CodePattern :=
  let patterns : list CodePattern := [] in
  let patterns := patterns ++ detectAIPatterns code in
  let patterns := patterns ++ detectStylePatterns code in
  let patterns := patterns ++ detectComplexityPatterns code in
  let patterns := patterns ++ detectSecurityPatterns code in
  patterns.

End PatternAnalyzer.

(* ================================================================== *)
(** * Abrupt completion *)
(* ================================================================== *)

(** The exceptions the engines can raise. *)
Inductive JsError : Type :=
| TypeError (message : string)
| Error (message : string).

(** The outcome of a call: a value, or an exception that propagates. *)
Inductive completion (A : Type) : Type :=
| Normal (a : A)
| Throw (e : JsError).

Arguments Normal {A} a.
Arguments Throw {A} e.

Definition bind {A B : Type} (c : completion A) (f : A -> completion B)
  : completion B :=
  match c with
  | Normal a => f a
  | Throw e => Throw e
  end.

Notation "x <- c ;; k" := (bind c (fun x => k))
  (at level 61, c at next level, right associativity).

Definition completesNormally {A : Type} (c : completion A) : bool :=
  match c with
  | Normal _ => true
  | Throw _ => false
  end.

(** [m.length] where [m] is the result of a g-flagged [match], asserted
    non-null by the postfix [!], which the compiler erases: reading a
    property of null throws. *)
Definition lengthOfNonNull (m : option (list jsstring)) : completion nat :=
  match m with
  | Some l => Normal (List.length l)
  | None => Throw (TypeError "Cannot read properties of null (reading 'length')")
  end.

(** Text constants: the line feed and the double quote. *)
Definition nl : string := String "010"%char EmptyString.
Definition dq : string := String "034"%char EmptyString.

(** A template literal written line by line. *)
Definition template (lines : list string) : string := String.concat nl lines.

(* ================================================================== *)
(** * services/suggestionGenerator.ts *)
(* ================================================================== *)

Module SuggestionGenerator.

Local Open Scope string_scope.
Local Open Scope list_scope.
Local Open Scope nat_scope.

Inductive SuggestionType : Type := refactor | security | performance | style.

Inductive Priority : Type := high | medium | low.

Record DeveloperSuggestion : Type := {
  suggestionType : SuggestionType;
  title : string;
  description : string;
  codeSnippet : string;
  priority : Priority
}.

(** for\s*\([^)]+\) : a loop header *)
Definition forHeader : regex :=
  seqs [Str "for"; star space; Str "("; plus (noneOf [41%N]); Str ")"].

(** A loop header, an opening brace, at least fifty code units that are
    no closing brace, a closing brace. *)
Definition duplicatePattern : regex :=
  seqs [forHeader; star space; Str "{"; atLeast 50 (noneOf [125%N]); Str "}"].

(** if\s*\( *)
Definition ifOpen : regex := seqs [Str "if"; star space; Str "("].

Definition extractFunctions : DeveloperSuggestion :=
  {| suggestionType := refactor;
     title := "Extract Functions";
     description := "Consider breaking down large functions into smaller, reusable components for better maintainability.";
     codeSnippet :=
       template
         [ "// Before:"; "function largeFunction() {"; "  // 100+ lines"; "}";
           EmptyString; "// After:"; "function mainFunction() {";
           "  validateInput();"; "  processData();"; "  formatOutput();"; "}";
           EmptyString; "function validateInput() { ... }";
           "function processData() { ... }" ];
     priority := medium |}.

Definition extractRepeatedLogic : DeveloperSuggestion :=
  {| suggestionType := refactor;
     title := "Extract Repeated Logic";
     description := "Similar code blocks detected. Consider extracting into a reusable helper function.";
     codeSnippet :=
       template
         [ "// Extract common logic:"; "function processItem(item) {";
           "  // Common processing logic"; "  return transformedItem;"; "}";
           EmptyString; "// Use in multiple places:";
           "items.forEach(item => processItem(item));" ];
     priority := medium |}.

Definition simplifyConditionalLogic : DeveloperSuggestion :=
  {| suggestionType := refactor;
     title := "Simplify Conditional Logic";
     description := "Multiple conditional statements detected. Consider using strategy pattern or lookup tables.";
     codeSnippet :=
       template
         [ "// Instead of multiple ifs:"; "const handlers = {";
           "  'type1': handleType1,"; "  'type2': handleType2,";
           "  'type3': handleType3"; "};"; EmptyString; "handlers[type]?.();" ];
     priority := low |}.

Definition generateRefactoringSuggestions (code : jsstring)
  : completion (list DeveloperSuggestion) :=
  let suggestions : list DeveloperSuggestion := [] in
  let suggestions :=
    if JsString.includes code (u16 "function") && (500 <? JsString.length code)
    then suggestions ++ [extractFunctions]
    else suggestions in
  let duplicatePatterns := matchGlobal false duplicatePattern code in
  let suggestions :=
    match duplicatePatterns with
    | Some found =>
        if 2 <? List.length found
        then suggestions ++ [extractRepeatedLogic]
        else suggestions
    | None => suggestions
    end in
  manyIfs <-
    (if JsString.includes code (u16 "if")
     then n <- lengthOfNonNull (matchGlobal false ifOpen code) ;; Normal (5 <? n)
     else Normal false) ;;
  let suggestions :=
    if (manyIfs : bool)
    then suggestions ++ [simplifyConditionalLogic]
    else suggestions in
  Normal suggestions.

(** The credential names of the suggestion generator:
    password, secret or apikey. *)
Definition secretNames : regex :=
  Alt (Str "password") (Alt (Str "secret") (Str "apikey")).

Definition hardcodedSecrets : regex :=
  Seq secretNames PatternAnalyzer.assignedLiteral.

(** innerHTML\s*= *)
Definition innerHTMLAssign : regex := seqs [Str "innerHTML"; star space; Str "="].

Definition removeHardcodedCredentials : DeveloperSuggestion :=
  {| suggestionType := security;
     title := "Remove Hardcoded Credentials";
     description := "Credentials should be stored in environment variables, not hardcoded in source code.";
     codeSnippet :=
       template
         [ "// Instead of:";
           String.append "const apiKey = "
             (String.append dq (String.append "hardcoded-key" (String.append dq ";")));
           EmptyString; "// Use:";
           "const apiKey = import.meta.env.VITE_API_KEY;" ];
     priority := high |}.

Definition avoidEval : DeveloperSuggestion :=
  {| suggestionType := security;
     title := "Avoid eval()";
     description := "Using eval() is dangerous and can lead to code injection attacks. Use safer alternatives.";
     codeSnippet :=
       template
         [ "// Instead of eval, use:"; "const result = JSON.parse(jsonString);";
           "// or"; "const fn = new Function('return ' + expression)();" ];
     priority := high |}.

Definition xssRisk : DeveloperSuggestion :=
  {| suggestionType := security;
     title := "XSS Risk with innerHTML";
     description := "Using innerHTML with user input can lead to XSS attacks. Use textContent or sanitize input.";
     codeSnippet :=
       template
         [ "// Safer approach:"; "element.textContent = userInput;";
           "// Or use a sanitization library:";
           "element.innerHTML = DOMPurify.sanitize(userInput);" ];
     priority := high |}.

Definition generateSecuritySuggestions (code : jsstring)
  : list DeveloperSuggestion :=
  let suggestions : list DeveloperSuggestion := [] in
  let suggestions :=
    if test true hardcodedSecrets code
    then suggestions ++ [removeHardcodedCredentials]
    else suggestions in
  let suggestions :=
    if test false PatternAnalyzer.evalUsage code
    then suggestions ++ [avoidEval]
    else suggestions in
  let suggestions :=
    if test false innerHTMLAssign code
    then suggestions ++ [xssRisk]
    else suggestions in
  suggestions.

(** A loop header, an opening brace, code units that are no closing brace,
    then the start of another loop header. *)
Definition nestedLoop : regex :=
  seqs [forHeader; star space; Str "{"; star (noneOf [125%N]);
        Str "for"; star space; Str "("].

(** \.map\([^)]+\)\.filter\( *)
Definition mapFilter : regex :=
  seqs [Str ".map("; plus (noneOf [41%N]); Str ").filter("].

(** document\.querySelector|document\.getElementById *)
Definition domQuery : regex :=
  Alt (Str "document.querySelector") (Str "document.getElementById").

Definition optimizeNestedLoops : DeveloperSuggestion :=
  {| suggestionType := performance;
     title := "Optimize Nested Loops";
     description :=
       String.append "Nested loops can have O(n"
         (String "194"%char (String "178"%char
            ") complexity. Consider using hash maps or other data structures."));
     codeSnippet :=
       template
         [ "// Instead of nested loops:"; "const map = new Map();";
           "array1.forEach(item => map.set(item.id, item));";
           "array2.forEach(item => {"; "  const match = map.get(item.id);";
           "});" ];
     priority := medium |}.

Definition combineArrayOperations : DeveloperSuggestion :=
  {| suggestionType := performance;
     title := "Combine Array Operations";
     description := "Chaining map and filter creates multiple iterations. Combine them for better performance.";
     codeSnippet :=
       template
         [ "// Instead of:"; "array.map(x => x * 2).filter(x => x > 10);";
           EmptyString; "// Use reduce:"; "array.reduce((acc, x) => {";
           "  const doubled = x * 2;"; "  if (doubled > 10) acc.push(doubled);";
           "  return acc;"; "}, []);" ];
     priority := low |}.

Definition cacheDomQueries : DeveloperSuggestion :=
  {| suggestionType := performance;
     title := "Cache DOM Queries";
     description := "Multiple DOM queries detected. Cache references to improve performance.";
     codeSnippet :=
       template
         [ "// Cache DOM references:";
           "const element = document.querySelector('.my-element');";
           "// Reuse the cached reference"; "element.classList.add('active');" ];
     priority := medium |}.

Definition generatePerformanceSuggestions (code : jsstring)
  : list DeveloperSuggestion :=
  let suggestions : list DeveloperSuggestion := [] in
  let suggestions :=
    if test false nestedLoop code
    then suggestions ++ [optimizeNestedLoops]
    else suggestions in
  let suggestions :=
    if test false mapFilter code
    then suggestions ++ [combineArrayOperations]
    else suggestions in
  let suggestions :=
    if test false domQuery code
       && (3 <? List.length (orEmpty (matchGlobal false domQuery code)))
    then suggestions ++ [cacheDomQueries]
    else suggestions in
  suggestions.

(** var\s+\w+ *)
Definition varDecl : regex := seqs [Str "var"; plus space; plus word].

(** A function declaration up to the opening brace of its body:
    function, a name, a parameter list without closing parenthesis inside. *)
Definition functionOpen : regex :=
  seqs [Str "function"; plus space; plus word; star space; Str "(";
        star (noneOf [41%N]); Str ")"; star space; Str "{"].

(** The same with a body of at most fifty code units, none a closing
    brace, and the closing brace. *)
Definition shortFunction : regex :=
  seqs [functionOpen; between 0 50 (noneOf [125%N]); Str "}"].

Definition useConstLet : DeveloperSuggestion :=
  {| suggestionType := style;
     title := "Use const/let Instead of var";
     description := "Modern JavaScript uses const and let for better scoping and immutability.";
     codeSnippet :=
       template
         [ "// Instead of:"; "var count = 0;"; EmptyString; "// Use:";
           "const count = 0; // for values that won't change";
           "let counter = 0; // for values that will change" ];
     priority := low |}.

Definition considerArrowFunctions : DeveloperSuggestion :=
  {| suggestionType := style;
     title := "Consider Arrow Functions";
     description := "For simple functions, arrow functions provide cleaner syntax.";
     codeSnippet :=
       template
         [ "// Instead of:"; "function add(a, b) {"; "  return a + b;"; "}";
           EmptyString; "// Use:"; "const add = (a, b) => a + b;" ];
     priority := low |}.

Definition lineLength : DeveloperSuggestion :=
  {| suggestionType := style;
     title := "Line Length";
     description := "Some lines exceed 120 characters. Break them down for better readability.";
     codeSnippet :=
       template
         [ "// Break long lines:"; "const result = veryLongFunction(";
           "  parameter1,"; "  parameter2,"; "  parameter3"; ");" ];
     priority := low |}.

Definition generateStyleSuggestions (code : jsstring)
  : list DeveloperSuggestion :=
  let suggestions : list DeveloperSuggestion := [] in
  let suggestions :=
    if test false varDecl code
    then suggestions ++ [useConstLet]
    else suggestions in
  let suggestions :=
    if test false functionOpen code
    then
      match matchGlobal false shortFunction code with
      | Some arrowPossible =>
          if 0 <? List.length arrowPossible
          then suggestions ++ [considerArrowFunctions]
          else suggestions
      | None => suggestions
      end
    else suggestions in
  let suggestions :=
    if existsb (fun line => 120 <? JsString.length line) (JsString.split_nl code)
    then suggestions ++ [lineLength]
    else suggestions in
  suggestions.

Definition generateSuggestions (code : jsstring) (language : jsstring)
  : completion (list DeveloperSuggestion) :=
  let suggestions : list DeveloperSuggestion := [] in
  refactoring <- generateRefactoringSuggestions code ;;
  let suggestions := suggestions ++ refactoring in
  let suggestions := suggestions ++ generateSecuritySuggestions code in
  let suggestions := suggestions ++ generatePerformanceSuggestions code in
  let suggestions := suggestions ++ generateStyleSuggestions code in
  Normal suggestions.

End SuggestionGenerator.

(* ================================================================== *)
(** * services/codeAnalysisService.ts *)
(* ================================================================== *)

Module CodeAnalysisService.

(** An element of [AnalysisResult.patterns]. *)
Record PatternEntry : Type := {
  type : string;
  name : string;
  severity : PatternAnalyzer.Severity;
  description : string
}.

(** An element of [AnalysisResult.suggestions]. *)
Record SuggestionEntry : Type := {
  stype : SuggestionGenerator.SuggestionType;
  title : string;
  sdescription : string;
  priority : SuggestionGenerator.Priority
}.

Record AnalysisResult : Type := {
  submissionId : string;
  aiProbability : float;
  confidenceScore : float;
  patterns : list PatternEntry;
  suggestions : list SuggestionEntry
}.

(** The row sent to the table code_submissions. *)
Record Submission : Type := {
  user_id : jsstring;
  code_content : jsstring;
  language : jsstring;
  file_name : jsstring
}.

(** The rows the coordinator sends to the datastore after the submission,
    table by table, each with the submission identifier. *)
Inductive Insert : Type :=
| detection_results (submission_id : string) (ai_probability : float)
    (detection_method : string) (confidence_score : float)
    (analysis_details : DetectionEngine.Scores)
| code_patterns (rows : list (string * PatternAnalyzer.CodePattern))
| developer_suggestions
    (rows : list (string * SuggestionGenerator.DeveloperSuggestion)).

Section Coordinator.

(** The datastore client is an external collaborator.  Inserting the
    submission answers with the identifier of the created row, or fails
    (an error, or no row); the later inserts are awaited and their answers
    are not read. *)
Variable insertSubmission : Submission -> option string.

(** [analyzeCode]: the inserts performed after the submission, in order,
    and the outcome. *)
Definition analyzeCode (code language fileName userId : jsstring)
  : list Insert * completion AnalysisResult :=
  match insertSubmission
          {| user_id := userId; code_content := code;
             language := language; file_name := fileName |} with
  | None => ([], Throw (Error "Failed to create code submission"))
  | Some id =>
      let detectionResult := DetectionEngine.analyzeCode code language in
      let patterns := PatternAnalyzer.detectPatterns code language in
      match SuggestionGenerator.generateSuggestions code language with
      | Throw e => ([], Throw e)
      | Normal suggestions =>
          let log :=
            [ detection_results id
                (DetectionEngine.aiProbability detectionResult)
                (DetectionEngine.detectionMethod detectionResult)
                (DetectionEngine.confidenceScore detectionResult)
                (DetectionEngine.analysisDetails detectionResult) ] in
          let log :=
            if (0 <? List.length patterns)%nat
            then log ++ [code_patterns (map (fun pattern => (id, pattern)) patterns)]
            else log in
          let log :=
            if (0 <? List.length suggestions)%nat
            then log ++ [developer_suggestions
                           (map (fun suggestion => (id, suggestion)) suggestions)]
            else log in
          (log,
           Normal
             {| submissionId := id;
                aiProbability := DetectionEngine.aiProbability detectionResult;
                confidenceScore := DetectionEngine.confidenceScore detectionResult;
                patterns :=
                  map (fun p =>
                         {| type := PatternAnalyzer.patternType p;
                            name := PatternAnalyzer.patternName p;
                            severity := PatternAnalyzer.severity p;
                            description := PatternAnalyzer.description p |})
                      patterns;
                suggestions :=
                  map (fun s =>
                         {| stype := SuggestionGenerator.suggestionType s;
                            title := SuggestionGenerator.title s;
                            sdescription := SuggestionGenerator.description s;
                            priority := SuggestionGenerator.priority s |})
                      suggestions |})
      end
  end.

End Coordinator.

End CodeAnalysisService.

(* ================================================================== *)
(** * The formulas as the specification words them *)
(* ================================================================== *)

Module Spec.

Local Open Scope float_scope.

(** clamp(lo, hi, x) *)
Definition clamp (lo hi x : float) : float :=
  if lt x lo then lo else if gt x hi then hi else x.

(** The arithmetic mean of a sequence. *)
Definition mean (l : list float) : float := sum l / ofNat (List.length l).

(** The population standard deviation: the square root of the mean of the
    squared deviations from the mean. *)
Definition stddev (l : list float) : float :=
  let mu := mean l in
  Math_sqrt (mean (map (fun v => (v - mu) * (v - mu)) l)).

(** Rounding to two decimal places. *)
Definition roundTo2 (x : float) : float := Math_round (x * 100) / 100.

Definition aiProbability (s : DetectionEngine.Scores) : float :=
  roundTo2
    (clamp 0 100
       (0.15 * DetectionEngine.commentDensity s
        + 0.25 * DetectionEngine.codeStructureScore s
        + 0.20 * DetectionEngine.namingPatternScore s
        + 0.20 * DetectionEngine.complexityScore s
        + 0.20 * DetectionEngine.uniformityScore s)).

Definition confidenceScore (s : DetectionEngine.Scores) : float :=
  roundTo2 (clamp 50 100 (100 - 1.5 * stddev (DetectionEngine.values s))).

(** How many elements of a list satisfy a test. *)
Fixpoint count {A : Type} (f : A -> bool) (l : list A) : nat :=
  match l with
  | [] => 0
  | x :: l' => if f x then S (count f l') else count f l'
  end.

(** A comment line: its trimmed content starts with one of the four
    comment prefixes. *)
Definition commentPrefixes : list jsstring :=
  [u16 "//"; u16 "/*"; u16 "*"; u16 "#"].

Definition isComment (line : jsstring) : bool :=
  existsb (JsString.startsWith (JsString.trim line)) commentPrefixes.

Definition isNonBlank (line : jsstring) : bool :=
  negb (JsString.eqb (JsString.trim line) []).

(** density = commentLines / nonBlankLines * 100, and 0 when there is no
    non-blank line. *)
Definition density (code : jsstring) : float :=
  let lines := JsString.split_nl code in
  let nonBlankLines := count isNonBlank lines in
  if (nonBlankLines =? 0)%nat then 0
  else ofNat (count isComment lines) / ofNat nonBlankLines * 100.

Definition densityBucket (density : float) : float :=
  if gt density 30 then 75 else if lt density 5 then 20 else 50.

(** The commentDensity extractor as the specification states it. *)
Definition commentDensity (code : jsstring) : float :=
  densityBucket (density code).

(** The same with the guard of the source: the score, not the density, is
    0 when there is no non-blank line. *)
Definition commentDensityGuarded (code : jsstring) : float :=
  if (count isNonBlank (JsString.split_nl code) =? 0)%nat then 0
  else densityBucket (density code).

End Spec.

(* ================================================================== *)
(** * Bucket sets, checks and test inputs *)
(* ================================================================== *)

Module Buckets.

Import DetectionEngine.
Local Open Scope float_scope.

(** The values each extractor can return. *)
Definition commentDensityBuckets : list float := [0; 20; 50; 75].
Definition codeStructureBuckets : list float := [30; 50; 70].
Definition namingPatternBuckets : list float := [35; 50; 65].
Definition complexityBuckets : list float := [40; 55; 70].
Definition uniformityBuckets : list float := [40; 55; 75].

Definition bucketed (s : Scores) : Prop :=
  In (commentDensity s) commentDensityBuckets
  /\ In (codeStructureScore s) codeStructureBuckets
  /\ In (namingPatternScore s) namingPatternBuckets
  /\ In (complexityScore s) complexityBuckets
  /\ In (uniformityScore s) uniformityBuckets.

(** The ranges of the two results, and their finiteness. *)
Definition withinRanges (r : DetectionResult) : Prop :=
  le 0 (aiProbability r) = true /\ le (aiProbability r) 100 = true
  /\ le 50 (confidenceScore r) = true /\ le (confidenceScore r) 100 = true
  /\ is_finite (aiProbability r) = true
  /\ is_finite (confidenceScore r) = true.

(** The integer a number holds (0 for NaN and the infinities; the floor
    otherwise). *)
Definition toZ (x : float) : Z :=
  match Prim2SF x with
  | S754_finite s m e =>
      let sm := if s then Z.neg m else Z.pos m in
      if (0 <=? e)%Z then (sm * 2 ^ e)%Z else (sm / 2 ^ (- e))%Z
  | _ => 0%Z
  end.

(** One hundred times the exact weighted sum of integer scores. *)
Definition weightedHundredths (s : Scores) : Z :=
  (15 * toZ (commentDensity s) + 25 * toZ (codeStructureScore s)
   + 20 * toZ (namingPatternScore s) + 20 * toZ (complexityScore s)
   + 20 * toZ (uniformityScore s))%Z.

(** 25 times the exact population variance of the five integer scores:
    5 times the sum of the squares, minus the square of the sum. *)
Definition spread (s : Scores) : Z :=
  let vs := map toZ (values s) in
  (5 * fold_right (fun v acc => v * v + acc) 0 vs
   - fold_right Z.add 0 vs * fold_right Z.add 0 vs)%Z.

(** [k] hundredths is 100 - 1.5 sigma rounded to the nearest hundredth, a
    tie going up, where sigma = sqrt(n)/5:
    k - 1/2 <= 10000 - 30 sqrt(n) < k + 1/2, squared to stay in the
    integers. *)
Definition nearestConfidence (k n : Z) : bool :=
  ((3600 * n <=? (20001 - 2 * k) * (20001 - 2 * k))
   && ((19999 - 2 * k <? 0)
       || ((19999 - 2 * k) * (19999 - 2 * k) <? 3600 * n)))%Z.

(** The hundredths a result holds. *)
Definition hundredths (x : float) : Z := toZ (Math_round (x * 100)).

End Buckets.

Module Inputs.

Definition javascript : jsstring := u16 "javascript".
Definition python : jsstring := u16 "python".

(** A word that contains the letters i, f and no conditional. *)
Definition diffText : jsstring := u16 "diff".

(** A quoted literal assigned to a name like token. *)
Definition tokenAssignment : jsstring :=
  u16 (String.append "token = " (String.append dq (String.append "abc123" dq))).

(** The same for a name like password. *)
Definition passwordAssignment : jsstring :=
  u16 (String.append "password = " (String.append dq (String.append "abc123" dq))).

(** Two lines, one of 121 characters, in both orders. *)
Definition longLine : jsstring := repeat 97%N 121.
Definition longLineFirst : jsstring := JsString.join_nl [longLine; u16 "b"].
Definition longLineSecond : jsstring := JsString.join_nl [u16 "b"; longLine].

(** Scenario A: ten lines, four of them comments, the rest statements. *)
Definition tenLines : jsstring :=
  JsString.join_nl
    (map u16
       [ "// read the input"; "let a = read();"; "// parse it";
         "let b = parse(a);"; "// check it"; "check(b);"; "// write it";
         "write(b);"; "flush();"; "close();" ]%string).


(** A datastore that accepts every submission. *)
Definition accepting (row : CodeAnalysisService.Submission) : option string :=
  Some "submission-1"%string.

End Inputs.

(* ================================================================== *)
(** * What the claims observe *)
(* ================================================================== *)

Module Observe.

Local Open Scope string_scope.
Local Open Scope list_scope.
Local Open Scope nat_scope.

(** The pattern of a given name. *)
Definition named (name : string) (p : PatternAnalyzer.CodePattern) : bool :=
  String.eqb (PatternAnalyzer.patternName p) name.

(** The suggestion of a given title. *)
Definition titled (title : string) (s : SuggestionGenerator.DeveloperSuggestion)
  : bool :=
  String.eqb (SuggestionGenerator.title s) title.

Definition emitsPattern (name : string) (code language : jsstring) : bool :=
  existsb (named name) (PatternAnalyzer.detectPatterns code language).

Definition emitsSuggestion (title : string) (code language : jsstring) : bool :=
  match SuggestionGenerator.generateSuggestions code language with
  | Normal suggestions => existsb (titled title) suggestions
  | Throw _ => false
  end.

(** The excessive-comments pattern over [n] comment lines. *)
Definition excessiveComments (n : nat) : PatternAnalyzer.CodePattern :=
  {| PatternAnalyzer.patternType := "ai-indicator";
     PatternAnalyzer.patternName := "Excessive Comments";
     PatternAnalyzer.severity := PatternAnalyzer.medium;
     PatternAnalyzer.description :=
       "High comment density may indicate AI-generated code";
     PatternAnalyzer.lineNumbers := seq 1 n |}.

(** The long-function pattern over the given line numbers. *)
Definition longFunction (lineNumbers : list nat) : PatternAnalyzer.CodePattern :=
  {| PatternAnalyzer.patternType := "complexity";
     PatternAnalyzer.patternName := "Long Function";
     PatternAnalyzer.severity := PatternAnalyzer.medium;
     PatternAnalyzer.description :=
       "Function exceeds 50 lines, consider refactoring";
     PatternAnalyzer.lineNumbers := lineNumbers |}.


(** The element of the coordinator's result made from a pattern, and the
    one made from a suggestion. *)
Definition patternEntry (p : PatternAnalyzer.CodePattern)
  : CodeAnalysisService.PatternEntry :=
  {| CodeAnalysisService.type := PatternAnalyzer.patternType p;
     CodeAnalysisService.name := PatternAnalyzer.patternName p;
     CodeAnalysisService.severity := PatternAnalyzer.severity p;
     CodeAnalysisService.description := PatternAnalyzer.description p |}.

Definition suggestionEntry (s : SuggestionGenerator.DeveloperSuggestion)
  : CodeAnalysisService.SuggestionEntry :=
  {| CodeAnalysisService.stype := SuggestionGenerator.suggestionType s;
     CodeAnalysisService.title := SuggestionGenerator.title s;
     CodeAnalysisService.sdescription := SuggestionGenerator.description s;
     CodeAnalysisService.priority := SuggestionGenerator.priority s |}.

(** The Number values of the integers below [n], computed once. *)
Definition numbersBelow (n : nat) : list float := map ofNat (seq 0 n).

Definition numberIn (table : list float) (k : nat) : float :=
  nth k table nan.

(** The comparisons of the comment-density rule agree with the exact ones
    (30 < 100 c / t and 100 c / t < 5) for [c] comment lines out of [t]
    non-blank lines. *)
Definition densityAgrees (table : list float) (t c : nat) : bool :=
  let density := (numberIn table c / numberIn table t * 100)%float in
  Bool.eqb (gt density 30) (3 * t <? 10 * c)
  && Bool.eqb (lt density 5) (20 * c <? t).

Definition densityAgreesUpTo (bound : nat) : bool :=
  let table := numbersBelow (S bound) in
  forallb (fun t => forallb (densityAgrees table t) (seq 0 (S t))) (seq 1 bound).

(** The comparison of the excessive-comments rule agrees with the exact
    one (3 n < 10 c) for [c] comment lines out of [n] lines. *)
Definition excessAgrees (table : list float) (n c : nat) : bool :=
  Bool.eqb (gt (numberIn table c) (numberIn table n * 0.3)%float)
           (3 * n <? 10 * c).

Definition excessAgreesUpTo (bound : nat) : bool :=
  let table := numbersBelow (S bound) in
  forallb (fun n => forallb (excessAgrees table n) (seq 0 (S n)))
          (seq 0 (S bound)).

End Observe.

(* ================================================================== *)
(** * components/HistoryPanel.tsx and components/CodeEditor.tsx *)
(* ================================================================== *)

Module HistoryPanel.

Local Open Scope float_scope.

(** The badge classes of a probability. *)
Definition getProbabilityColor (probability : float) : string :=
  if ge probability 70 then "text-red-600 bg-red-100"%string
  else if ge probability 40 then "text-yellow-600 bg-yellow-100"%string
  else "text-green-600 bg-green-100"%string.

End HistoryPanel.

Module CodeEditor.

(** A string in a condition: true unless it is empty. *)
Definition truthy (s : jsstring) : bool :=
  match s with
  | [] => false
  | _ :: _ => true
  end.

(** [handleSubmit]: the arguments of the call of [onAnalyze], if it is
    made, from the code, the language and the file name of the form. *)
Definition handleSubmit (code language fileName : jsstring)
  : option (jsstring * jsstring * jsstring) :=
  if truthy (JsString.trim code)
  then Some (code, language,
             if truthy fileName then fileName else u16 "untitled.js")
  else None.

End CodeEditor.

(* ================================================================== *)
(** * Catalogues and auxiliary notions of the further properties *)
(* ================================================================== *)

Module Catalog.

Local Open Scope string_scope.
Local Open Scope list_scope.
Local Open Scope nat_scope.

(** [Sublist l m]: [l] is [m] with some elements left out, the others in
    their order. *)
Inductive Sublist {A : Type} : list A -> list A -> Prop :=
| Sublist_nil : Sublist [] []
| Sublist_skip (x : A) (l m : list A) : Sublist l m -> Sublist l (x :: m)
| Sublist_take (x : A) (l m : list A) : Sublist l m -> Sublist (x :: l) (x :: m).

Definition entry (type name : string) (severity : PatternAnalyzer.Severity)
    (description : string) : CodeAnalysisService.PatternEntry :=
  {| CodeAnalysisService.type := type;
     CodeAnalysisService.name := name;
     CodeAnalysisService.severity := severity;
     CodeAnalysisService.description := description |}.

(** The patterns of each detector group, in the order of the source. *)
Definition aiEntries : list CodeAnalysisService.PatternEntry :=
  [ entry "ai-indicator" "Excessive Comments" PatternAnalyzer.medium
      "High comment density may indicate AI-generated code";
    entry "ai-indicator" "Perfect Formatting" PatternAnalyzer.low
      "Consistently perfect formatting across all lines";
    entry "ai-indicator" "Overly Descriptive Names" PatternAnalyzer.low
      "Variable names are unusually descriptive and verbose" ].

Definition styleEntries : list CodeAnalysisService.PatternEntry :=
  [ entry "style" "Long Lines" PatternAnalyzer.low
      "Lines exceed recommended length of 120 characters";
    entry "style" "Inconsistent Spacing" PatternAnalyzer.low
      "Operators lack proper spacing" ].

Definition complexityEntries : list CodeAnalysisService.PatternEntry :=
  [ entry "complexity" "Deep Nesting" PatternAnalyzer.high
      "Multiple levels of nested blocks increase complexity";
    entry "complexity" "Many Functions" PatternAnalyzer.medium
      "File contains many functions, consider splitting into modules";
    entry "complexity" "Long Function" PatternAnalyzer.medium
      "Function exceeds 50 lines, consider refactoring" ].

Definition securityEntries : list CodeAnalysisService.PatternEntry :=
  [ entry "security" "Hardcoded Credentials" PatternAnalyzer.high
      "Potential hardcoded credentials detected";
    entry "security" "SQL Injection Risk" PatternAnalyzer.high
      "String concatenation in SQL queries detected";
    entry "security" "Eval Usage" PatternAnalyzer.high
      "Use of eval() is a security risk" ].

Definition patternCatalog : list CodeAnalysisService.PatternEntry :=
  aiEntries ++ styleEntries ++ complexityEntries ++ securityEntries.

Definition entryNamed (name : string) (e : CodeAnalysisService.PatternEntry)
  : bool :=
  String.eqb (CodeAnalysisService.name e) name.

(** The suggestions of each trigger group, in the order of the source. *)
Definition refactoringTemplates : list SuggestionGenerator.DeveloperSuggestion :=
  [ SuggestionGenerator.extractFunctions;
    SuggestionGenerator.extractRepeatedLogic;
    SuggestionGenerator.simplifyConditionalLogic ].

Definition securityTemplates : list SuggestionGenerator.DeveloperSuggestion :=
  [ SuggestionGenerator.removeHardcodedCredentials;
    SuggestionGenerator.avoidEval;
    SuggestionGenerator.xssRisk ].

Definition performanceTemplates : list SuggestionGenerator.DeveloperSuggestion :=
  [ SuggestionGenerator.optimizeNestedLoops;
    SuggestionGenerator.combineArrayOperations;
    SuggestionGenerator.cacheDomQueries ].

Definition styleTemplates : list SuggestionGenerator.DeveloperSuggestion :=
  [ SuggestionGenerator.useConstLet;
    SuggestionGenerator.considerArrowFunctions;
    SuggestionGenerator.lineLength ].

Definition suggestionCatalog : list SuggestionGenerator.DeveloperSuggestion :=
  refactoringTemplates ++ securityTemplates ++ performanceTemplates
  ++ styleTemplates.

(** The white-space code units, one by one. *)
Definition whiteSpaceUnits : list N :=
  [9; 10; 11; 12; 13; 32; 160; 5760; 8192; 8193; 8194; 8195; 8196; 8197;
   8198; 8199; 8200; 8201; 8202; 8232; 8233; 8239; 8287; 12288; 65279]%N.

(** A text of white space only: what [trim] reduces to the empty string. *)
Definition blank (s : jsstring) : bool := forallb JsString.isWhiteSpace s.

(** A sufficient test for a pattern to match no text over an alphabet:
    some part that every match goes through needs a code unit outside
    of it. *)
Fixpoint failsOn (alphabet : list N) (ignoreCase : bool) (r : regex) : bool :=
  match r with
  | Char c => negb (existsb (charEq ignoreCase c) alphabet)
  | Class p => negb (existsb p alphabet)
  | Repeat p lo _ => (0 <? lo) && negb (existsb p alphabet)
  | Seq r1 r2 => failsOn alphabet ignoreCase r1 || failsOn alphabet ignoreCase r2
  | Alt r1 r2 => failsOn alphabet ignoreCase r1 && failsOn alphabet ignoreCase r2
  | Empty | AssertStart | AssertEnd | WordBoundary => false
  end.

(** The positions, counted from [k], of the lines longer than 120. *)
Fixpoint longPositionsFrom (k : nat) (lines : list jsstring) : list nat :=
  match lines with
  | [] => []
  | line :: rest =>
      if 120 <? JsString.length line
      then k :: longPositionsFrom (S k) rest
      else longPositionsFrom (S k) rest
  end.

(** The long-lines pattern over the given line numbers. *)
Definition longLines (lineNumbers : list nat) : PatternAnalyzer.CodePattern :=
  {| PatternAnalyzer.patternType := "style";
     PatternAnalyzer.patternName := "Long Lines";
     PatternAnalyzer.severity := PatternAnalyzer.low;
     PatternAnalyzer.description :=
       "Lines exceed recommended length of 120 characters";
     PatternAnalyzer.lineNumbers := lineNumbers |}.

(** The scores of a text without non-blank line, and the highest scores. *)
Definition blankScores : DetectionEngine.Scores :=
  {| DetectionEngine.commentDensity := 0;
     DetectionEngine.codeStructureScore := 30;
     DetectionEngine.namingPatternScore := 35;
     DetectionEngine.complexityScore := 55;
     DetectionEngine.uniformityScore := 55 |}.

Definition topScores : DetectionEngine.Scores :=
  {| DetectionEngine.commentDensity := 75;
     DetectionEngine.codeStructureScore := 70;
     DetectionEngine.namingPatternScore := 65;
     DetectionEngine.complexityScore := 70;
     DetectionEngine.uniformityScore := 75 |}.

(** The invariant of the long-function scan before the line of index
    [idx]: the recorded numbers are lines already seen, none is recorded
    before the 51st line, and an open function started on a line already
    seen. *)
Definition scanInvariant (st : PatternAnalyzer.Scan) (idx : nat) : Prop :=
  Forall (fun n => 1 <= n <= idx) (PatternAnalyzer.lineNumbersOut st)
  /\ (PatternAnalyzer.lineNumbersOut st = [] \/ 50 < idx)
  /\ (PatternAnalyzer.inFunction st = true ->
      1 <= PatternAnalyzer.functionStart st <= idx).

End Catalog.

(* ================================================================== *)
(** * The matcher on known cases *)
(* ================================================================== *)

Section MatcherExamples.

(** A global match collects the successive matches, an empty one too, and
    moves on by one code unit after an empty match. *)
Example match_global_greedy :
  matchGlobal false (star (oneOf [97%N])) (u16 "aaab")
  = Some [u16 "aaa"; []; []].
Proof. reflexivity. Qed.

Example match_global_none :
  matchGlobal false (atLeast 2 lower) (u16 "a=b") = None.
Proof. reflexivity. Qed.

(** A keyword between word boundaries is not found inside a word. *)
Example keyword_as_a_word :
  matchAll false (seqs [WordBoundary; Str "if"; WordBoundary])
    (u16 "if diff if(x) elif if")
  = [u16 "if"; u16 "if"; u16 "if"].
Proof. reflexivity. Qed.

(** Without the m flag the end assertion is the end of the input. *)
Example end_of_input_only :
  test false (seqs [Str "{"; star space; AssertEnd])
       (JsString.join_nl [u16 "a {"; []]) = true
  /\ test false (seqs [Str "{"; star space; AssertEnd])
          (JsString.join_nl [u16 "a {"; u16 "b"]) = false.
Proof. split; reflexivity. Qed.

(** The dot stops at a line feed; a negated class does not. *)
Example dot_and_negated_class :
  test false (seqs [Str "if"; star dot; Str "{"])
       (JsString.join_nl [u16 "if"; u16 "{"]) = false
  /\ test false (seqs [Str "("; plus (noneOf [41%N]); Str ")"])
          (JsString.join_nl [u16 "(a"; u16 "b)"]) = true.
Proof. split; reflexivity. Qed.

(** A quantifier gives back what the rest of the pattern needs. *)
Example backtracking :
  exec false (seqs [plus word; Str "b"]) (u16 "aabb c") = Some (u16 "aabb")
  /\ exec false (seqs [between 0 3 word; Str "b"]) (u16 "aaaab")
     = Some (u16 "aaab").
Proof. split; reflexivity. Qed.

(** The i flag folds the ASCII letters. *)
Example ignore_case :
  test true (Str "SELECT") (u16 "a SeLeCt b") = true
  /\ test false (Str "SELECT") (u16 "a SeLeCt b") = false.
Proof. split; reflexivity. Qed.

(** Lines, trimming and the leading white space. *)
Example lines_and_trim :
  JsString.split_nl (JsString.join_nl [u16 "a"; []; u16 " b "; []])
  = [u16 "a"; []; u16 " b "; []]
  /\ JsString.split_nl [] = [[]]
  /\ JsString.trim (9%N :: u16 "  x y  ") = u16 "x y"
  /\ exec false DetectionEngine.indentationPattern (9%N :: u16 "  x ")
     = Some (9%N :: u16 "  ").
Proof. repeat split; reflexivity. Qed.

(** Rounding to the nearest integer, a tie going up. *)
Example math_round :
  Math_round 2.5 = 3%float /\ Math_round (-2.5) = (-2)%float
  /\ Math_round 2.4999 = 2%float /\ Math_round 7074.999999999 = 7075%float
  /\ Math_round nan = nan /\ round2 36.5 = 36.5%float.
Proof. vm_compute. repeat split; reflexivity. Qed.

End MatcherExamples.

(* ================================================================== *)
(** * Detection engine: buckets, bounds and the aggregation *)
(* ================================================================== *)

Section DetectionEngineFacts.

Import DetectionEngine Buckets.
Local Open Scope float_scope.

Lemma calculateCommentDensity_bucket (code : jsstring) :
  In (calculateCommentDensity code) commentDensityBuckets.
Proof.
  unfold calculateCommentDensity, commentDensityBuckets.
  destruct (_ =? 0)%nat; [simpl; auto|].
  destruct (gt _ 30); [simpl; auto|].
  destruct (lt _ 5); simpl; auto.
Qed.

Lemma analyzeCodeStructure_bucket (code : jsstring) :
  In (analyzeCodeStructure code) codeStructureBuckets.
Proof.
  unfold analyzeCodeStructure, codeStructureBuckets.
  destruct (gt _ 80); [simpl; auto|].
  destruct (lt _ 40); simpl; auto.
Qed.

Lemma analyzeNamingPatterns_bucket (code : jsstring) :
  In (analyzeNamingPatterns code) namingPatternBuckets.
Proof.
  unfold analyzeNamingPatterns, namingPatternBuckets.
  destruct (gt _ 40); [simpl; auto|].
  destruct (lt _ 10); simpl; auto.
Qed.

Lemma analyzeComplexity_bucket (code : jsstring) :
  In (analyzeComplexity code) complexityBuckets.
Proof.
  unfold analyzeComplexity, complexityBuckets.
  destruct (gt _ 80 && gt _ _); [simpl; auto|].
  destruct (lt _ 30 && lt _ _); simpl; auto.
Qed.

Lemma analyzeUniformity_bucket (code : jsstring) :
  In (analyzeUniformity code) uniformityBuckets.
Proof.
  unfold analyzeUniformity, uniformityBuckets.
  destruct (lt _ 20); [simpl; auto|].
  destruct (gt _ 50); simpl; auto.
Qed.

Lemma extract_bucketed (code : jsstring) : bucketed (extract code).
Proof.
  unfold bucketed, extract; simpl.
  repeat split.
  - apply calculateCommentDensity_bucket.
  - apply analyzeCodeStructure_bucket.
  - apply analyzeNamingPatterns_bucket.
  - apply analyzeComplexity_bucket.
  - apply analyzeUniformity_bucket.
Qed.

(** Case analysis over the 324 combinations of bucket values. *)
Lemma bucketed_cases (P : Scores -> Prop) :
  (forall a b c d e,
      In a commentDensityBuckets -> In b codeStructureBuckets ->
      In c namingPatternBuckets -> In d complexityBuckets ->
      In e uniformityBuckets ->
      P {| commentDensity := a; codeStructureScore := b;
           namingPatternScore := c; complexityScore := d;
           uniformityScore := e |}) ->
  forall s, bucketed s -> P s.
Proof.
  intros HP [a b c d e] (Ha & Hb & Hc & Hd & He); simpl in *.
  now apply HP.
Qed.

Ltac each_bucket :=
  apply bucketed_cases;
  unfold commentDensityBuckets, codeStructureBuckets, namingPatternBuckets,
    complexityBuckets, uniformityBuckets;
  intros ? ? ? ? ? Ha Hb Hc Hd He;
  simpl in Ha, Hb, Hc, Hd, He;
  repeat match goal with
         | H : _ \/ _ |- _ => destruct H as [H | H]
         | H : False |- _ => destruct H
         | H : _ = ?x |- _ => is_var x; subst x
         end.

(** On bucket values the engine computes the formulas of the
    specification. *)
Lemma aggregation_on_buckets (s : Scores) :
  bucketed s ->
  round2 (calculateAIProbability s) = Spec.aiProbability s
  /\ round2 (calculateConfidence s) = Spec.confidenceScore s.
Proof.
  revert s. each_bucket; vm_compute; split; reflexivity.
Qed.

Lemma ranges_on_buckets (s : Scores) :
  bucketed s ->
  let p := round2 (calculateAIProbability s) in
  let c := round2 (calculateConfidence s) in
  le 0 p = true /\ le p 100 = true /\ le 50 c = true /\ le c 100 = true
  /\ is_finite p = true /\ is_finite c = true.
Proof.
  revert s. each_bucket; vm_compute; repeat split; reflexivity.
Qed.

Lemma weighted_sum_on_buckets (s : Scores) :
  bucketed s ->
  le 30.5 (weightedSum s) = true /\ le (weightedSum s) 70.75 = true
  /\ calculateAIProbability s = weightedSum s
  /\ le 30.5 (round2 (calculateAIProbability s)) = true
  /\ le (round2 (calculateAIProbability s)) 70.75 = true.
Proof.
  revert s. each_bucket; vm_compute; repeat split; reflexivity.
Qed.

(** The results against exact arithmetic: every score is an integer, the
    probability is the number nearest to the exact weighted sum, which has
    at most two decimals, and the confidence is the number nearest to the
    hundredth nearest to 100 - 1.5 sigma, sigma the exact standard
    deviation; the clamp to [50,100] leaves it as it is. *)
Lemma aggregation_exact_on_buckets (s : Scores) :
  bucketed s ->
  let k := hundredths (round2 (calculateConfidence s)) in
  map (fun v => ofZ (toZ v)) (values s) = values s
  /\ round2 (calculateAIProbability s) = ofZ (weightedHundredths s) / 100
  /\ round2 (calculateConfidence s) = ofZ k / 100
  /\ nearestConfidence k (spread s) = true
  /\ (5000 <=? k)%Z = true.
Proof.
  revert s. each_bucket; vm_compute; repeat split; reflexivity.
Qed.

(** C6. For every input, the aiProbability returned by the detection
    engine is the weighted sum 0.15 commentDensity + 0.25
    codeStructureScore + 0.20 namingPatternScore + 0.20 complexityScore +
    0.20 uniformityScore clamped to [0,100] and rounded to two decimals,
    and the confidenceScore is 100 - 1.5 times the population standard
    deviation of the five bucket values, clamped to [50,100] and rounded
    to two decimals. *)
Theorem analyzeCode_aggregation (code language : jsstring) :
  aiProbability (analyzeCode code language) = Spec.aiProbability (extract code)
  /\ confidenceScore (analyzeCode code language)
     = Spec.confidenceScore (extract code).
Proof.
  unfold analyzeCode; simpl.
  apply aggregation_on_buckets, extract_bucketed.
Qed.

(** The same results in exact arithmetic, for every input: the scores are
    integers, the probability is the number nearest to their exact
    weighted sum, and the confidence is the number nearest to [k]
    hundredths, [k / 100] being 100 - 1.5 sigma rounded to two decimals
    for the exact standard deviation sigma, and at least 50. *)
Lemma analyzeCode_exact (code language : jsstring) :
  let r := analyzeCode code language in
  let s := extract code in
  let k := hundredths (confidenceScore r) in
  map (fun v => ofZ (toZ v)) (values s) = values s
  /\ aiProbability r = ofZ (weightedHundredths s) / 100
  /\ confidenceScore r = ofZ k / 100
  /\ nearestConfidence k (spread s) = true
  /\ (5000 <=? k)%Z = true.
Proof.
  unfold analyzeCode; simpl.
  apply (aggregation_exact_on_buckets (extract code)), extract_bucketed.
Qed.

(** C7. For any input string, the empty one included, aiProbability lies
    in [0,100], confidenceScore lies in [50,100], and both are finite
    numbers: neither NaN nor infinite. *)
Theorem analyzeCode_within_ranges (code language : jsstring) :
  withinRanges (analyzeCode code language).
Proof.
  unfold withinRanges, analyzeCode; simpl.
  apply (ranges_on_buckets (extract code)), extract_bucketed.
Qed.

(** On an input without any non-blank line the averages are NaN, every
    comparison with them fails, and the two extractors that divide by the
    number of non-blank lines return their middle bucket. *)
Lemma undefined_averages_on_empty_input :
  analyzeComplexity [] = 55 /\ analyzeUniformity [] = 55
  /\ calculateCommentDensity [] = 0
  /\ aiProbability (analyzeCode [] Inputs.javascript) = 36.5
  /\ confidenceScore (analyzeCode [] Inputs.javascript) = 69.63.
Proof. vm_compute. repeat split; reflexivity. Qed.

(** C10. For every input, each metric takes a value of its bucket set, the
    weighted sum before the clamp lies between 30.5 and 70.75, the clamp
    to [0,100] returns it unchanged, and aiProbability lies between 30.5
    and 70.75. *)
Theorem weighted_sum_bounds (code language : jsstring) :
  let s := extract code in
  bucketed s
  /\ le 30.5 (weightedSum s) = true /\ le (weightedSum s) 70.75 = true
  /\ calculateAIProbability s = weightedSum s
  /\ le 30.5 (aiProbability (analyzeCode code language)) = true
  /\ le (aiProbability (analyzeCode code language)) 70.75 = true.
Proof.
  unfold analyzeCode; simpl.
  split; [apply extract_bucketed|].
  apply weighted_sum_on_buckets, extract_bucketed.
Qed.

End DetectionEngineFacts.

(* ================================================================== *)
(** * The language tag *)
(* ================================================================== *)

(** C9. For every code text and any two language tags, each of the three
    engines returns the same output: the detection result, the patterns,
    and the suggestions (or the exception) do not depend on the tag. *)
Theorem language_is_ignored (code l1 l2 : jsstring) :
  DetectionEngine.analyzeCode code l1 = DetectionEngine.analyzeCode code l2
  /\ PatternAnalyzer.detectPatterns code l1 = PatternAnalyzer.detectPatterns code l2
  /\ SuggestionGenerator.generateSuggestions code l1
     = SuggestionGenerator.generateSuggestions code l2.
Proof. repeat split. Qed.

(* ================================================================== *)
(** * Comment density *)
(* ================================================================== *)

Section CommentDensity.

Import DetectionEngine.
Local Open Scope float_scope.

Lemma count_filter {A : Type} (f : A -> bool) (l : list A) :
  Spec.count f l = List.length (filter f l).
Proof.
  induction l as [|x l IH]; simpl; [reflexivity|].
  destruct (f x); simpl; congruence.
Qed.

Lemma count_ext {A : Type} (f g : A -> bool) (l : list A) :
  (forall x, f x = g x) -> Spec.count f l = Spec.count g l.
Proof.
  intros E; induction l as [|x l IH]; simpl; [reflexivity|].
  rewrite E, IH; reflexivity.
Qed.

Lemma count_all {A : Type} (f : A -> bool) (l : list A) :
  forallb f l = true -> Spec.count f l = List.length l.
Proof.
  induction l as [|x l IH]; simpl; [reflexivity|].
  intros H; apply andb_prop in H; destruct H as [Hx Hl].
  rewrite Hx, IH; auto.
Qed.

Lemma isComment_isCommentLine (line : jsstring) :
  Spec.isComment line = isCommentLine line.
Proof.
  unfold Spec.isComment, isCommentLine, Spec.commentPrefixes; simpl.
  rewrite orb_false_r, !orb_assoc; reflexivity.
Qed.

Lemma isNonBlank_nonBlank (line : jsstring) :
  Spec.isNonBlank line = nonBlank line.
Proof.
  unfold Spec.isNonBlank, nonBlank, JsString.length.
  destruct (JsString.trim line); reflexivity.
Qed.

Lemma commentLines_count (code : jsstring) :
  List.length (filter isCommentLine (JsString.split_nl code))
  = Spec.count Spec.isComment (JsString.split_nl code).
Proof.
  rewrite <- count_filter. apply count_ext.
  intros; symmetry; apply isComment_isCommentLine.
Qed.

Lemma totalLines_count (code : jsstring) :
  List.length (filter nonBlank (JsString.split_nl code))
  = Spec.count Spec.isNonBlank (JsString.split_nl code).
Proof.
  rewrite <- count_filter. apply count_ext.
  intros; symmetry; apply isNonBlank_nonBlank.
Qed.

Lemma float_neq (x y : float) (f : float -> bool) : f x <> f y -> x <> y.
Proof. intros H E; apply H; rewrite E; reflexivity. Qed.

(** On an input without non-blank lines the source returns the score 0,
    where the density being 0 would put it in the bucket 20. *)
Lemma commentDensity_of_empty_input_is_not_20 :
  calculateCommentDensity [] = 0
  /\ Spec.commentDensity [] = 20
  /\ calculateCommentDensity [] <> Spec.commentDensity [].
Proof.
  repeat split; try (vm_compute; reflexivity).
  apply (float_neq _ _ (fun x => lt x 10)). vm_compute. discriminate.
Qed.

(** C4, amended. For every input text the commentDensity extractor
    returns 0 when there is no non-blank line, and otherwise 75 if
    density > 30, 20 if density < 5 and 50 otherwise, where density =
    commentLines / nonBlankLines * 100 and a line is a comment iff its
    trimmed content starts with //, /*, * or #.  In particular ten
    non-blank lines of which four are comments give the bucket 75. *)
Theorem calculateCommentDensity_guarded (code : jsstring) :
  calculateCommentDensity code = Spec.commentDensityGuarded code
  /\ (List.length (JsString.split_nl code) = 10%nat ->
      forallb Spec.isNonBlank (JsString.split_nl code) = true ->
      Spec.count Spec.isComment (JsString.split_nl code) = 4%nat ->
      calculateCommentDensity code = 75).
Proof.
  assert (E : calculateCommentDensity code = Spec.commentDensityGuarded code).
  { unfold calculateCommentDensity, Spec.commentDensityGuarded, Spec.density,
      Spec.densityBucket.
    rewrite commentLines_count, totalLines_count.
    destruct (_ =? 0)%nat; reflexivity. }
  split; [exact E|].
  intros Hlen Hall Hcount.
  rewrite E. unfold Spec.commentDensityGuarded, Spec.density.
  rewrite (count_all _ _ Hall), Hlen, Hcount.
  vm_compute. reflexivity.
Qed.

Lemma calculateCommentDensity_guarded_witness :
  calculateCommentDensity Inputs.tenLines = 75.
Proof.
  apply (calculateCommentDensity_guarded Inputs.tenLines);
    vm_compute; reflexivity.
Defined.

Lemma numberIn_numbersBelow (n k : nat) :
  (k < n)%nat -> Observe.numberIn (Observe.numbersBelow n) k = ofNat k.
Proof.
  intros H. unfold Observe.numberIn, Observe.numbersBelow.
  rewrite (nth_indep _ nan (ofNat 0)) by (rewrite length_map, length_seq; exact H).
  rewrite map_nth, seq_nth by exact H. reflexivity.
Qed.

Lemma densityAgreesUpTo_sound (bound t c : nat) :
  Observe.densityAgreesUpTo bound = true ->
  (1 <= t <= bound)%nat -> (c <= t)%nat ->
  let density := ofNat c / ofNat t * 100 in
  gt density 30 = (3 * t <? 10 * c)%nat
  /\ lt density 5 = (20 * c <? t)%nat.
Proof.
  intros H Ht Hc.
  unfold Observe.densityAgreesUpTo in H. cbv zeta in H.
  rewrite forallb_forall in H.
  assert (Hin : In t (seq 1 bound)) by (apply in_seq; lia).
  specialize (H t Hin). rewrite forallb_forall in H.
  assert (Hic : In c (seq 0 (S t))) by (apply in_seq; lia).
  specialize (H c Hic).
  unfold Observe.densityAgrees in H.
  rewrite !numberIn_numbersBelow in H by lia.
  apply andb_prop in H. destruct H as [H1 H2].
  apply Bool.eqb_prop in H1, H2. auto.
Qed.

Lemma densityAgreesUpTo_400 : Observe.densityAgreesUpTo 400 = true.
Proof. vm_compute. reflexivity. Qed.

(** Up to 400 non-blank lines the two comparisons of the rule are the
    exact ones: density > 30 iff 3 t < 10 c, and density < 5 iff 20 c < t. *)
Lemma density_comparisons_exact (t c : nat) :
  (1 <= t <= 400)%nat -> (c <= t)%nat ->
  let density := ofNat c / ofNat t * 100 in
  gt density 30 = (3 * t <? 10 * c)%nat
  /\ lt density 5 = (20 * c <? t)%nat.
Proof. apply densityAgreesUpTo_sound, densityAgreesUpTo_400. Qed.

End CommentDensity.

(* ================================================================== *)
(** * Excessive comments *)
(* ================================================================== *)

Section ExcessiveComments.

Import PatternAnalyzer Observe.







(** The positional indices are not the positions of the comments: two
    comments on lines 3 and 4 of four lines are reported as lines 1, 2. *)
Lemma excessive_comments_positions :
  detectPatterns (JsString.join_nl (map u16 ["a;"; "b;"; "// c"; "// d"]%string))
    Inputs.javascript
  = [excessiveComments 2].
Proof. vm_compute. reflexivity. Qed.

Lemma excessAgreesUpTo_sound (bound n c : nat) :
  excessAgreesUpTo bound = true ->
  (n <= bound)%nat -> (c <= n)%nat ->
  gt (ofNat c) (ofNat n * 0.3)%float = (3 * n <? 10 * c)%nat.
Proof.
  intros H Hn Hc.
  unfold excessAgreesUpTo in H. cbv zeta in H.
  rewrite forallb_forall in H.
  assert (Hin : In n (seq 0 (S bound))) by (apply in_seq; lia).
  specialize (H n Hin). rewrite forallb_forall in H.
  assert (Hic : In c (seq 0 (S n))) by (apply in_seq; lia).
  specialize (H c Hic).
  unfold excessAgrees in H.
  rewrite !numberIn_numbersBelow in H by lia.
  apply Bool.eqb_prop in H. exact H.
Qed.

Lemma excessAgreesUpTo_400 : excessAgreesUpTo 400 = true.
Proof. vm_compute. reflexivity. Qed.

(** Up to 400 lines the comparison of the rule is the exact one:
    c > 0.3 n iff 3 n < 10 c. *)
Lemma excess_comparison_exact (n c : nat) :
  (n <= 400)%nat -> (c <= n)%nat ->
  gt (ofNat c) (ofNat n * 0.3)%float = (3 * n <? 10 * c)%nat.
Proof. apply excessAgreesUpTo_sound, excessAgreesUpTo_400. Qed.

End ExcessiveComments.

(* ================================================================== *)
(** * Long functions *)
(* ================================================================== *)

Section LongFunction.

Import PatternAnalyzer Observe.


Lemma scanLine_outside (st : Scan) (line : jsstring) (idx : nat) :
  inFunction st = false -> isHeader line = false -> scanLine st line idx = st.
Proof.
  intros Hout Hno. unfold scanLine. rewrite Hno, Hout. reflexivity.
Qed.

Lemma scanLines_outside (pre rest : list jsstring) :
  Forall (fun l => isHeader l = false) pre ->
  forall st idx,
    inFunction st = false ->
    scanLines st idx (pre ++ rest) = scanLines st (idx + List.length pre) rest.
Proof.
  induction 1 as [|l pre Hl _ IH]; intros st idx Hout; simpl.
  - rewrite Nat.add_0_r. reflexivity.
  - rewrite scanLine_outside by assumption.
    rewrite IH by assumption. f_equal. lia.
Qed.






Lemma long_function_not_in_ai (code : jsstring) :
  filter (named "Long Function") (detectAIPatterns code) = [].
Proof.
  unfold detectAIPatterns. cbv zeta.
  destruct (gt _ _);
    destruct (forallb evenIndent _ && _);
    destruct (5 <? _); reflexivity.
Qed.

Lemma long_function_not_in_style (code : jsstring) :
  filter (named "Long Function") (detectStylePatterns code) = [].
Proof.
  unfold detectStylePatterns. cbv zeta.
  destruct (0 <? _); destruct (test _ _ _); reflexivity.
Qed.

Lemma long_function_not_in_security (code : jsstring) :
  filter (named "Long Function") (detectSecurityPatterns code) = [].
Proof.
  unfold detectSecurityPatterns. cbv zeta.
  destruct (test true hardcodedSecrets code);
    destruct (test true sqlInjection code);
    destruct (test false evalUsage code); reflexivity.
Qed.

Lemma long_function_in_complexity (code : jsstring) :
  let found := findLongFunctions (JsString.split_nl code) in
  filter (named "Long Function") (detectComplexityPatterns code)
  = if 0 <? List.length found then [longFunction found] else [].
Proof.
  unfold detectComplexityPatterns. cbv zeta.
  destruct (matchGlobal false nestedBlocksPattern code) as [found|];
    [destruct (3 <? _)|];
    (destruct (matchGlobal false functionHeader code) as [found'|];
     [destruct (10 <? _)|]);
    destruct (0 <? _); reflexivity.
Qed.

(** The pattern analyzer reports the scan, once, under the name Long
    Function, when the scan recorded a line. *)
Lemma long_function_rule (code language : jsstring) :
  let found := findLongFunctions (JsString.split_nl code) in
  filter (named "Long Function") (detectPatterns code language)
  = if 0 <? List.length found then [longFunction found] else [].
Proof.
  unfold detectPatterns. cbv zeta. simpl app.
  rewrite !filter_app.
  rewrite long_function_not_in_ai, long_function_not_in_style,
    long_function_not_in_security, app_nil_r.
  apply long_function_in_complexity.
Qed.




End LongFunction.

(* ================================================================== *)
(** * Hardcoded credentials *)
(* ================================================================== *)

Section Credentials.

Import Observe.

(** Adding an alternative to the names keeps every match. *)
Lemma matcher_more_names (ic : bool) (p s a t l : regex)
    (prev : option N) (str : jsstring) (k : Cont) (rest : jsstring) :
  matcher ic (Seq (Alt p (Alt s a)) l) prev str k = Some rest ->
  matcher ic (Seq (Alt p (Alt s (Alt a t))) l) prev str k = Some rest.
Proof.
  simpl.
  destruct (matcher ic p prev str _); [auto|].
  destruct (matcher ic s prev str _); [auto|].
  intros H; rewrite H; reflexivity.
Qed.

Lemma searchFrom_more_names (ic : bool) (p s a t l : regex) (str : jsstring) :
  forall prev,
    searchFrom ic (Seq (Alt p (Alt s a)) l) prev str <> None ->
    searchFrom ic (Seq (Alt p (Alt s (Alt a t))) l) prev str <> None.
Proof.
  induction str as [|c str IH]; intros prev; cbn [searchFrom]; unfold matchAt.
  - destruct (matcher ic (Seq (Alt p (Alt s a)) l) prev []
                (fun _ rest => Some rest)) as [rest|] eqn:E; [|congruence].
    rewrite (matcher_more_names _ _ _ _ t _ _ _ _ _ E). congruence.
  - destruct (matcher ic (Seq (Alt p (Alt s a)) l) prev (c :: str)
                (fun _ rest => Some rest)) as [rest|] eqn:E.
    + rewrite (matcher_more_names _ _ _ _ t _ _ _ _ _ E). congruence.
    + intros H.
      destruct (matcher ic (Seq (Alt p (Alt s (Alt a t))) l) prev (c :: str)
                  (fun _ rest => Some rest)); [congruence|].
      apply IH, H.
Qed.

(** Whatever the suggestion generator takes for a credential, the pattern
    analyzer takes for one. *)
Lemma credential_shapes_included (code : jsstring) :
  test true SuggestionGenerator.hardcodedSecrets code = true ->
  test true PatternAnalyzer.hardcodedSecrets code = true.
Proof.
  unfold test, exec. intros H.
  pose proof (searchFrom_more_names true (Str "password") (Str "secret")
                (Str "apikey") (Str "token") PatternAnalyzer.assignedLiteral
                code None) as M.
  fold SuggestionGenerator.secretNames PatternAnalyzer.secretNames in M.
  fold SuggestionGenerator.hardcodedSecrets PatternAnalyzer.hardcodedSecrets in M.
  destruct (searchFrom true SuggestionGenerator.hardcodedSecrets None code);
    [|discriminate].
  destruct (searchFrom true PatternAnalyzer.hardcodedSecrets None code);
    [reflexivity|].
  exfalso; apply M; congruence.
Qed.

Lemma emitsPattern_credentials (code language : jsstring) :
  emitsPattern "Hardcoded Credentials" code language
  = test true PatternAnalyzer.hardcodedSecrets code.
Proof.
  unfold emitsPattern, PatternAnalyzer.detectPatterns. cbv zeta. simpl app.
  rewrite !existsb_app.
  replace (existsb _ (PatternAnalyzer.detectAIPatterns code)) with false.
  replace (existsb _ (PatternAnalyzer.detectStylePatterns code)) with false.
  replace (existsb _ (PatternAnalyzer.detectComplexityPatterns code)) with false.
  - unfold PatternAnalyzer.detectSecurityPatterns. cbv zeta.
    destruct (test true PatternAnalyzer.hardcodedSecrets code);
      destruct (test true PatternAnalyzer.sqlInjection code);
      destruct (test false PatternAnalyzer.evalUsage code); reflexivity.
  - unfold PatternAnalyzer.detectComplexityPatterns. cbv zeta.
    destruct (matchGlobal false PatternAnalyzer.nestedBlocksPattern code);
      [destruct (3 <? _)|];
      (destruct (matchGlobal false PatternAnalyzer.functionHeader code);
       [destruct (10 <? _)|]);
      destruct (0 <? _); reflexivity.
  - unfold PatternAnalyzer.detectStylePatterns. cbv zeta.
    destruct (0 <? _); destruct (test _ _ _); reflexivity.
  - unfold PatternAnalyzer.detectAIPatterns. cbv zeta.
    destruct (gt _ _);
      destruct (forallb PatternAnalyzer.evenIndent _ && _);
      destruct (5 <? _); reflexivity.
Qed.

Lemma emitsSuggestion_credentials (code language : jsstring) :
  emitsSuggestion "Remove Hardcoded Credentials" code language = true ->
  test true SuggestionGenerator.hardcodedSecrets code = true.
Proof.
  unfold emitsSuggestion, SuggestionGenerator.generateSuggestions.
  destruct (SuggestionGenerator.generateRefactoringSuggestions code)
    as [refactoring|e] eqn:R; simpl; [|discriminate].
  rewrite !existsb_app.
  replace (existsb _ refactoring) with false.
  replace (existsb _ (SuggestionGenerator.generatePerformanceSuggestions code))
    with false.
  replace (existsb _ (SuggestionGenerator.generateStyleSuggestions code))
    with false.
  - unfold SuggestionGenerator.generateSecuritySuggestions. cbv zeta.
    destruct (test true SuggestionGenerator.hardcodedSecrets code);
      [reflexivity|].
    destruct (test false PatternAnalyzer.evalUsage code);
      destruct (test false SuggestionGenerator.innerHTMLAssign code);
      simpl; discriminate.
  - unfold SuggestionGenerator.generateStyleSuggestions. cbv zeta.
    destruct (test false SuggestionGenerator.varDecl code);
      (destruct (test false SuggestionGenerator.functionOpen code);
       [destruct (matchGlobal false SuggestionGenerator.shortFunction code);
        [destruct (0 <? _)|]|]);
      destruct (existsb _ (JsString.split_nl code)); reflexivity.
  - unfold SuggestionGenerator.generatePerformanceSuggestions. cbv zeta.
    destruct (test false SuggestionGenerator.nestedLoop code);
      destruct (test false SuggestionGenerator.mapFilter code);
      destruct (test false SuggestionGenerator.domQuery code && _);
      reflexivity.
  - revert R. unfold SuggestionGenerator.generateRefactoringSuggestions.
    cbv zeta.
    destruct (JsString.includes code (u16 "if"));
      [destruct (matchGlobal false SuggestionGenerator.ifOpen code);
       simpl; [|discriminate]|simpl];
      destruct (JsString.includes code (u16 "function") && _);
      (destruct (matchGlobal false SuggestionGenerator.duplicatePattern code);
       [destruct (2 <? _)|]);
      try destruct (5 <? _);
      intros R; injection R as <-; reflexivity.
Qed.

(** One direction of the equivalence holds for every input: when the
    suggestion Remove Hardcoded Credentials is emitted, so is the pattern
    Hardcoded Credentials. *)
Lemma credentials_suggestion_implies_pattern (code language : jsstring) :
  emitsSuggestion "Remove Hardcoded Credentials" code language = true ->
  emitsPattern "Hardcoded Credentials" code language = true.
Proof.
  intros H. rewrite emitsPattern_credentials.
  apply credential_shapes_included.
  apply (emitsSuggestion_credentials code language H).
Qed.

(** On a name like password both engines answer. *)
Lemma credentials_password :
  emitsPattern "Hardcoded Credentials" Inputs.passwordAssignment Inputs.javascript
  = true
  /\ emitsSuggestion "Remove Hardcoded Credentials"
       Inputs.passwordAssignment Inputs.javascript = true.
Proof. vm_compute. split; reflexivity. Qed.

(** C2. On a quoted literal assigned to a name like token the pattern
    analyzer emits Hardcoded Credentials and the suggestion generator,
    whose expression lists password, secret and apikey only, emits no
    Remove Hardcoded Credentials: the equivalence of the claim fails. *)
Theorem credentials_token_not_suggested :
  emitsPattern "Hardcoded Credentials" Inputs.tokenAssignment Inputs.javascript
  = true
  /\ emitsSuggestion "Remove Hardcoded Credentials"
       Inputs.tokenAssignment Inputs.javascript = false
  /\ SuggestionGenerator.generateSuggestions
       Inputs.tokenAssignment Inputs.javascript = Normal [].
Proof. vm_compute. repeat split; reflexivity. Qed.

End Credentials.

(* ================================================================== *)
(** * Exceptions *)
(* ================================================================== *)

Section Exceptions.

Import SuggestionGenerator.

(** The suggestion generator completes normally exactly when the text
    does not contain the letters if, or contains a conditional opening. *)
Lemma generateSuggestions_completes (code language : jsstring) :
  completesNormally (generateSuggestions code language)
  = negb (JsString.includes code (u16 "if"))
    || match matchGlobal false ifOpen code with
       | Some _ => true
       | None => false
       end.
Proof.
  unfold generateSuggestions, generateRefactoringSuggestions. cbv zeta.
  destruct (JsString.includes code (u16 "if")); simpl;
    [destruct (matchGlobal false ifOpen code); reflexivity|reflexivity].
Qed.

(** C1. On the text diff, which contains the letters if and no
    conditional opening, the suggestion generator throws a TypeError,
    whatever the language tag; so does the coordinator once the
    submission is stored. *)
Theorem generateSuggestions_throws (language fileName userId : jsstring) :
  generateSuggestions Inputs.diffText language
  = Throw (TypeError "Cannot read properties of null (reading 'length')")
  /\ snd (CodeAnalysisService.analyzeCode Inputs.accepting Inputs.diffText
            language fileName userId)
     = Throw (TypeError "Cannot read properties of null (reading 'length')").
Proof. split; reflexivity. Qed.

End Exceptions.

(* ================================================================== *)
(** * The coordinator *)
(* ================================================================== *)

Section CoordinatorFacts.

Import CodeAnalysisService Observe.

(** The result of the coordinator does not determine the line numbers of
    the patterns: two inputs with the same result have patterns with
    different line numbers, so that no function recovers the patterns of
    the pattern analyzer from the result. *)
Lemma result_loses_line_numbers :
  ~ exists recover : AnalysisResult -> list PatternAnalyzer.CodePattern,
      forall code language fileName userId r,
        snd (analyzeCode Inputs.accepting code language fileName userId)
        = Normal r ->
        recover r = PatternAnalyzer.detectPatterns code language.
Proof.
  intros [recover H].
  assert (E1 : exists r,
             snd (analyzeCode Inputs.accepting Inputs.longLineFirst
                    Inputs.javascript [] [])
             = Normal r
             /\ snd (analyzeCode Inputs.accepting Inputs.longLineSecond
                       Inputs.javascript [] [])
                = Normal r).
  { eexists. split; vm_compute; reflexivity. }
  destruct E1 as (r & R1 & R2).
  pose proof (H _ _ _ _ _ R1) as P1.
  pose proof (H _ _ _ _ _ R2) as P2.
  rewrite P1 in P2.
  apply (f_equal (map PatternAnalyzer.lineNumbers)) in P2.
  vm_compute in P2. discriminate P2.
Qed.

(** C3, amended. For every (code, language, fileName) whose submission is
    stored and whose suggestions are generated, the result carries the
    identifier of the submission, the aiProbability and confidenceScore of
    the detection engine, and, in order, for each pattern its type, name,
    severity and description, and for each suggestion its type, title,
    description and priority.  The lineNumbers and the codeSnippet are
    not part of the result: the full records go to the datastore only. *)
Theorem analyzeCode_result
    (insertSubmission : Submission -> option string)
    (code language fileName userId : jsstring) (id : string)
    (suggestions : list SuggestionGenerator.DeveloperSuggestion) :
  insertSubmission
    {| user_id := userId; code_content := code;
       language := language; file_name := fileName |} = Some id ->
  SuggestionGenerator.generateSuggestions code language = Normal suggestions ->
  let detectionResult := DetectionEngine.analyzeCode code language in
  let found := PatternAnalyzer.detectPatterns code language in
  let run := analyzeCode insertSubmission code language fileName userId in
  snd run
  = Normal
      {| submissionId := id;
         aiProbability := DetectionEngine.aiProbability detectionResult;
         confidenceScore := DetectionEngine.confidenceScore detectionResult;
         patterns := map patternEntry found;
         suggestions := map suggestionEntry suggestions |}
  /\ (found <> [] ->
      In (code_patterns (map (fun pattern => (id, pattern)) found)) (fst run))
  /\ (suggestions <> [] ->
      In (developer_suggestions
            (map (fun suggestion => (id, suggestion)) suggestions))
         (fst run)).
Proof.
  intros Hid Hs detectionResult found run.
  unfold run, analyzeCode. rewrite Hid, Hs. fold found. cbv zeta.
  split; [reflexivity|].
  split.
  - intros Hne. destruct found as [|p ps]; [congruence|].
    simpl. destruct (0 <? List.length suggestions)%nat; simpl; auto.
  - intros Hne. destruct suggestions as [|s ss]; [congruence|].
    simpl. destruct (0 <? List.length found)%nat; simpl; auto.
Qed.

Lemma analyzeCode_result_witness :
  snd (analyzeCode Inputs.accepting Inputs.longLineFirst Inputs.javascript
         (u16 "a.js") (u16 "user-1"))
  = Normal
      {| submissionId := "submission-1";
         aiProbability :=
           DetectionEngine.aiProbability
             (DetectionEngine.analyzeCode Inputs.longLineFirst Inputs.javascript);
         confidenceScore :=
           DetectionEngine.confidenceScore
             (DetectionEngine.analyzeCode Inputs.longLineFirst Inputs.javascript);
         patterns :=
           map patternEntry
             (PatternAnalyzer.detectPatterns Inputs.longLineFirst Inputs.javascript);
         suggestions := map suggestionEntry [SuggestionGenerator.lineLength] |}.
Proof.
  assert (Hs : SuggestionGenerator.generateSuggestions
                 Inputs.longLineFirst Inputs.javascript
               = Normal [SuggestionGenerator.lineLength])
    by (vm_compute; reflexivity).
  exact (proj1 (analyzeCode_result Inputs.accepting Inputs.longLineFirst
                  Inputs.javascript (u16 "a.js") (u16 "user-1") "submission-1"
                  [SuggestionGenerator.lineLength] eq_refl Hs)).
Defined.

End CoordinatorFacts.

(* ================================================================== *)
(** * Further properties: the matcher *)
(* ================================================================== *)

Section MatcherFacts.

Import Catalog.

(** A continuation that succeeds more often lets the matcher succeed
    more often. *)
Lemma repeatMatcher_mono (p : N -> bool) (k k' : Cont) :
  (forall q t, k q t <> None -> k' q t <> None) ->
  forall s lo hi prev,
    repeatMatcher p lo hi prev s k <> None ->
    repeatMatcher p lo hi prev s k' <> None.
Proof.
  intros Hk. induction s as [|c s IH]; intros lo hi prev; cbn.
  - destruct lo; auto.
  - destruct (p c && match hi with Some 0 => false | _ => true end).
    + destruct (repeatMatcher p (pred lo) (option_map pred hi) (Some c) s k)
        eqn:E.
      * intros _.
        assert (N1 : repeatMatcher p (pred lo) (option_map pred hi) (Some c) s k'
                     <> None) by (apply IH; congruence).
        destruct (repeatMatcher p (pred lo) (option_map pred hi) (Some c) s k');
          congruence.
      * intros H.
        destruct (repeatMatcher p (pred lo) (option_map pred hi) (Some c) s k');
          [congruence|].
        destruct lo; auto.
    + destruct lo; auto.
Qed.

Lemma matcher_mono (ic : bool) (r : regex) :
  forall (k k' : Cont),
    (forall q t, k q t <> None -> k' q t <> None) ->
    forall prev s,
      matcher ic r prev s k <> None -> matcher ic r prev s k' <> None.
Proof.
  induction r as [|c|p|p lo hi|r1 IH1 r2 IH2|r1 IH1 r2 IH2| | |];
    intros k k' Hk prev s; cbn.
  - apply Hk.
  - destruct s as [|x s]; [auto|]. destruct (charEq ic c x); auto.
  - destruct s as [|x s]; [auto|]. destruct (p x); auto.
  - apply repeatMatcher_mono, Hk.
  - apply IH1. intros q t. apply IH2, Hk.
  - intros H.
    destruct (matcher ic r1 prev s k) eqn:E1.
    + assert (N1 : matcher ic r1 prev s k' <> None)
        by (apply (IH1 k k' Hk); congruence).
      destruct (matcher ic r1 prev s k'); congruence.
    + destruct (matcher ic r1 prev s k'); [congruence|].
      apply (IH2 k k' Hk), H.
  - destruct prev; auto.
  - destruct s; auto.
  - destruct (xorb _ _); auto.
Qed.

(** A pattern that matches wherever another does is found whenever the
    other is. *)
Lemma searchFrom_weaken (ic : bool) (r r' : regex) :
  (forall prev s, matchAt ic r prev s <> None -> matchAt ic r' prev s <> None) ->
  forall s prev,
    searchFrom ic r prev s <> None -> searchFrom ic r' prev s <> None.
Proof.
  intros Hw. induction s as [|c s IH]; intros prev; cbn [searchFrom].
  - intros H. specialize (Hw prev []).
    destruct (matchAt ic r prev []); [|congruence].
    destruct (matchAt ic r' prev []); [congruence|].
    exfalso; apply Hw; congruence.
  - intros H. specialize (Hw prev (c :: s)).
    destruct (matchAt ic r' prev (c :: s)); [congruence|].
    destruct (matchAt ic r prev (c :: s)).
    + exfalso; apply Hw; congruence.
    + apply IH, H.
Qed.

Lemma test_weaken (ic : bool) (r r' : regex) (s : jsstring) :
  (forall prev t, matchAt ic r prev t <> None -> matchAt ic r' prev t <> None) ->
  test ic r s = true -> test ic r' s = true.
Proof.
  intros Hw. unfold test, exec. intros H.
  pose proof (searchFrom_weaken ic r r' Hw s None) as W.
  destruct (searchFrom ic r None s); [|discriminate].
  destruct (searchFrom ic r' None s); [reflexivity|].
  exfalso; apply W; congruence.
Qed.

(** What starts with a pattern contains it. *)
Lemma test_prefix (ic : bool) (r1 r2 : regex) (s : jsstring) :
  test ic (Seq r1 r2) s = true -> test ic r1 s = true.
Proof.
  apply test_weaken. intros prev t. unfold matchAt. cbn [matcher].
  apply matcher_mono. congruence.
Qed.

(** The search and the global match agree on whether there is a match. *)
Lemma searchFrom_matchesFrom (ic : bool) (r : regex) (s : jsstring) :
  forall prev,
    searchFrom ic r prev s = None <-> matchesFrom ic r prev s 0 = [].
Proof.
  induction s as [|c s IH]; intros prev; cbn [searchFrom matchesFrom].
  - destruct (matchAt ic r prev []); split; congruence.
  - destruct (matchAt ic r prev (c :: s)); [split; congruence|].
    apply IH.
Qed.

Lemma test_matchAll (ic : bool) (r : regex) (s : jsstring) :
  test ic r s = negb (Nat.eqb (List.length (matchAll ic r s)) 0).
Proof.
  unfold test, exec, matchAll.
  pose proof (searchFrom_matchesFrom ic r s None) as [H1 H2].
  destruct (searchFrom ic r None s) eqn:E.
  - destruct (matchesFrom ic r None s 0); [|reflexivity].
    specialize (H2 eq_refl). discriminate.
  - rewrite (H1 eq_refl). reflexivity.
Qed.


Lemma matchGlobal_test (ic : bool) (r : regex) (s : jsstring) :
  matchGlobal ic r s = None <-> test ic r s = false.
Proof.
  rewrite test_matchAll. unfold matchGlobal.
  destruct (matchAll ic r s); simpl; split; congruence.
Qed.

(** A pattern that needs a code unit outside of an alphabet matches no
    text over the alphabet. *)
Lemma repeatMatcher_fails (alphabet : list N) (p : N -> bool) (k : Cont) :
  forall s lo hi prev,
    Forall (fun c => In c alphabet) s ->
    ((0 <? lo) && negb (existsb p alphabet) = true
     \/ forall q t, Forall (fun c => In c alphabet) t -> k q t = None) ->
    repeatMatcher p lo hi prev s k = None.
Proof.
  induction s as [|c s IH]; intros lo hi prev Hs Hf; cbn.
  - destruct Hf as [Hf|Hf].
    + destruct lo; [discriminate|reflexivity].
    + destruct lo; auto.
  - inversion Hs as [|? ? Hc Hs']; subst.
    destruct Hf as [Hf|Hf].
    + apply andb_prop in Hf. destruct Hf as [Hlo Hp].
      assert (Pc : p c = false).
      { destruct (p c) eqn:E; [|reflexivity].
        assert (X : existsb p alphabet = true)
          by (apply existsb_exists; exists c; auto).
        rewrite X in Hp. discriminate. }
      rewrite Pc. simpl. destruct lo; [discriminate|reflexivity].
    + rewrite (IH (pred lo) (option_map pred hi) (Some c) Hs' (or_intror Hf)).
      destruct (p c && _); destruct lo; auto.
Qed.

Lemma matcher_fails (alphabet : list N) (ic : bool) (r : regex) :
  forall (k : Cont) prev s,
    Forall (fun c => In c alphabet) s ->
    (failsOn alphabet ic r = true
     \/ forall q t, Forall (fun c => In c alphabet) t -> k q t = None) ->
    matcher ic r prev s k = None.
Proof.
  induction r as [|c|p|p lo hi|r1 IH1 r2 IH2|r1 IH1 r2 IH2| | |];
    intros k prev s Hs Hf; cbn [matcher failsOn] in *.
  - destruct Hf as [Hf|Hf]; [discriminate|auto].
  - destruct s as [|x s]; [reflexivity|].
    inversion Hs as [|? ? Hx Hs']; subst.
    destruct Hf as [Hf|Hf].
    + destruct (charEq ic c x) eqn:E; [|reflexivity].
      assert (X : existsb (charEq ic c) alphabet = true)
        by (apply existsb_exists; exists x; auto).
      rewrite X in Hf. discriminate.
    + destruct (charEq ic c x); auto.
  - destruct s as [|x s]; [reflexivity|].
    inversion Hs as [|? ? Hx Hs']; subst.
    destruct Hf as [Hf|Hf].
    + destruct (p x) eqn:E; [|reflexivity].
      assert (X : existsb p alphabet = true)
        by (apply existsb_exists; exists x; auto).
      rewrite X in Hf. discriminate.
    + destruct (p x); auto.
  - apply (repeatMatcher_fails alphabet); assumption.
  - destruct Hf as [Hf|Hf].
    + apply orb_prop in Hf. destruct Hf as [Hf|Hf].
      * apply IH1; auto.
      * apply IH1; [assumption|]. right. intros q t Ht. apply IH2; auto.
    + apply IH1; [assumption|]. right. intros q t Ht. apply IH2; auto.
  - destruct Hf as [Hf|Hf].
    + apply andb_prop in Hf. destruct Hf as [H1 H2].
      rewrite IH1 by auto. apply IH2; auto.
    + rewrite IH1 by auto. apply IH2; auto.
  - destruct Hf as [Hf|Hf]; [discriminate|]. destruct prev; auto.
  - destruct Hf as [Hf|Hf]; [discriminate|]. destruct s; auto.
  - destruct Hf as [Hf|Hf]; [discriminate|]. destruct (xorb _ _); auto.
Qed.

Lemma searchFrom_fails (alphabet : list N) (ic : bool) (r : regex) :
  failsOn alphabet ic r = true ->
  forall s prev,
    Forall (fun c => In c alphabet) s -> searchFrom ic r prev s = None.
Proof.
  intros Hf. induction s as [|c s IH]; intros prev Hs; cbn [searchFrom];
    unfold matchAt; rewrite (matcher_fails alphabet) by auto.
  - reflexivity.
  - inversion Hs; subst. apply IH; assumption.
Qed.

Lemma test_fails (alphabet : list N) (ic : bool) (r : regex) (s : jsstring) :
  failsOn alphabet ic r = true ->
  Forall (fun c => In c alphabet) s -> test ic r s = false.
Proof.
  intros Hf Hs. unfold test, exec.
  rewrite (searchFrom_fails alphabet) by assumption. reflexivity.
Qed.

Lemma matchGlobal_fails (alphabet : list N) (ic : bool) (r : regex)
    (s : jsstring) :
  failsOn alphabet ic r = true ->
  Forall (fun c => In c alphabet) s -> matchGlobal ic r s = None.
Proof.
  intros Hf Hs. apply matchGlobal_test, (test_fails alphabet); assumption.
Qed.

End MatcherFacts.

(* ================================================================== *)
(** * Further properties: blank input and the detection engine *)
(* ================================================================== *)

Section BlankInput.

Import DetectionEngine Buckets Catalog.
Local Open Scope float_scope.

Lemma isWhiteSpace_units (c : N) :
  JsString.isWhiteSpace c = true -> In c whiteSpaceUnits.
Proof.
  unfold JsString.isWhiteSpace, JsString.isLineTerminator, whiteSpaceUnits.
  rewrite !orb_true_iff, andb_true_iff, !N.eqb_eq, !N.leb_le.
  intros H. simpl. lia.
Qed.

Lemma blank_units (s : jsstring) :
  blank s = true -> Forall (fun c => In c whiteSpaceUnits) s.
Proof.
  unfold blank. intros H. apply Forall_forall. intros c Hc.
  apply isWhiteSpace_units. rewrite forallb_forall in H. auto.
Qed.

Lemma trimStart_nil (s : jsstring) :
  JsString.trimStart s = [] <-> blank s = true.
Proof.
  unfold blank. induction s as [|c s IH]; simpl; [tauto|].
  destruct (JsString.isWhiteSpace c); simpl; [exact IH|].
  split; discriminate.
Qed.

Lemma blank_trimStart (s : jsstring) :
  blank (JsString.trimStart s) = blank s.
Proof.
  unfold blank. induction s as [|c s IH]; simpl; [reflexivity|].
  destruct (JsString.isWhiteSpace c) eqn:E; simpl; [exact IH|].
  rewrite E. reflexivity.
Qed.

Lemma blank_rev (s : jsstring) : blank (rev s) = blank s.
Proof.
  unfold blank. induction s as [|c s IH]; simpl; [reflexivity|].
  rewrite forallb_app, IH. simpl. rewrite andb_true_r, andb_comm. reflexivity.
Qed.

(** [trim] gives the empty string exactly on the texts of white space. *)
Lemma trim_nil (s : jsstring) : JsString.trim s = [] <-> blank s = true.
Proof.
  unfold JsString.trim, JsString.trimEnd.
  rewrite <- (blank_trimStart s), <- (blank_rev (JsString.trimStart s)).
  rewrite <- trimStart_nil.
  split; intros H.
  - apply (f_equal (@rev N)) in H. rewrite rev_involutive in H. exact H.
  - rewrite H. reflexivity.
Qed.

Lemma blank_lines (s : jsstring) :
  forallb blank (JsString.split_nl s) = blank s.
Proof.
  induction s as [|c s IH]; [reflexivity|].
  cbn [JsString.split_nl].
  destruct (c =? 10)%N eqn:E.
  - apply N.eqb_eq in E. subst c. cbn [forallb]. rewrite IH. reflexivity.
  - destruct (JsString.split_nl s) as [|l ls].
    + cbn in IH |- *. unfold blank in *. cbn. rewrite <- IH.
      rewrite !andb_true_r. reflexivity.
    + cbn [forallb] in IH |- *. unfold blank in *. cbn [forallb].
      rewrite <- IH, andb_assoc. reflexivity.
Qed.

Lemma nonBlank_blank (line : jsstring) : nonBlank line = negb (blank line).
Proof.
  unfold nonBlank, JsString.length.
  destruct (blank line) eqn:B.
  - apply trim_nil in B. rewrite B. reflexivity.
  - destruct (JsString.trim line) eqn:T; [|reflexivity].
    apply trim_nil in T. congruence.
Qed.

Lemma no_nonBlank_line (code : jsstring) :
  filter nonBlank (JsString.split_nl code) = [] <-> blank code = true.
Proof.
  rewrite <- blank_lines.
  induction (JsString.split_nl code) as [|l ls IH]; cbn [filter forallb];
    [tauto|].
  rewrite nonBlank_blank.
  destruct (blank l); cbn [negb andb]; [exact IH|]. split; discriminate.
Qed.

Ltac no_match H :=
  rewrite ?(test_fails whiteSpaceUnits), ?(matchGlobal_fails whiteSpaceUnits)
    by (first [exact H | vm_compute; reflexivity]).

Lemma checkSpacing_blank (code : jsstring) :
  blank code = true -> checkSpacing code = false.
Proof.
  intros B. apply blank_units in B.
  unfold checkSpacing, properSpacingPatterns. cbn [fold_left].
  no_match B. reflexivity.
Qed.

Lemma checkLogicalBlocks_blank (code : jsstring) :
  blank code = true -> checkLogicalBlocks code = false.
Proof.
  intros B. apply blank_units in B.
  unfold checkLogicalBlocks. cbv zeta. no_match B. reflexivity.
Qed.

Lemma extract_blank (code : jsstring) :
  blank code = true -> extract code = blankScores.
Proof.
  intros B.
  pose proof (proj2 (no_nonBlank_line code) B) as L.
  pose proof (blank_units code B) as U.
  unfold extract, blankScores. f_equal.
  - unfold calculateCommentDensity. cbv zeta. rewrite L. reflexivity.
  - unfold analyzeCodeStructure. cbv zeta.
    rewrite checkSpacing_blank, checkLogicalBlocks_blank by assumption.
    unfold checkIndentation. cbv zeta. rewrite L.
    vm_compute. reflexivity.
  - unfold analyzeNamingPatterns. cbv zeta. no_match U.
    vm_compute. reflexivity.
  - unfold analyzeComplexity, controlFlowKeywords. cbv zeta. rewrite L.
    cbn [fold_left]. no_match U. vm_compute. reflexivity.
  - unfold analyzeUniformity. cbv zeta. rewrite L. vm_compute. reflexivity.
Qed.

(** X6. Every text that [trim] reduces to the empty string (the empty
    text, or white space and line breaks only) gets the same detection
    result: scores 0, 30, 35, 55, 55, aiProbability 36.5 and
    confidenceScore 69.63. *)
Theorem analyzeCode_blank (code language : jsstring) :
  JsString.trim code = [] ->
  extract code = blankScores
  /\ analysisDetails (analyzeCode code language) = blankScores
  /\ aiProbability (analyzeCode code language) = 36.5
  /\ confidenceScore (analyzeCode code language) = 69.63.
Proof.
  intros T. apply trim_nil in T.
  unfold analyzeCode. cbv zeta. rewrite (extract_blank code T).
  vm_compute. repeat split; reflexivity.
Qed.

Lemma analyzeCode_blank_witness :
  aiProbability
    (analyzeCode (JsString.join_nl [u16 "   "; 9%N :: u16 " "; []])
       Inputs.python) = 36.5.
Proof.
  apply (analyzeCode_blank (JsString.join_nl [u16 "   "; 9%N :: u16 " "; []])
           Inputs.python).
  reflexivity.
Defined.

Lemma float_differs (x y : float) : Prim2SF x <> Prim2SF y -> x <> y.
Proof. intros H E; apply H; rewrite E; reflexivity. Qed.

Lemma commentDensity_cases (code : jsstring) :
  (calculateCommentDensity code = 0 <-> JsString.trim code = [])
  /\ (calculateCommentDensity code = 0
      \/ In (calculateCommentDensity code) [20; 50; 75]).
Proof.
  rewrite trim_nil. rewrite <- no_nonBlank_line.
  unfold calculateCommentDensity. cbv zeta.
  destruct (filter nonBlank (JsString.split_nl code)) as [|l ls].
  - cbn. split; [tauto|auto].
  - cbn [List.length Nat.eqb].
    destruct (gt _ 30); [|destruct (lt _ 5)];
      (split; [split; [intros H; exfalso; revert H; apply float_differs;
                       vm_compute; discriminate
                      |discriminate]
              |right; simpl; auto]).
Qed.

(** X7. The commentDensity score is 0 exactly on the texts that [trim]
    reduces to the empty string; on every other text it is 20, 50 or 75. *)
Theorem commentDensity_zero_iff_blank (code : jsstring) :
  (calculateCommentDensity code = 0 <-> JsString.trim code = [])
  /\ (calculateCommentDensity code = 0
      \/ In (calculateCommentDensity code) [20; 50; 75]).
Proof. exact (commentDensity_cases code). Qed.

Lemma round2_bucket (v : float) :
  In v (commentDensityBuckets ++ codeStructureBuckets ++ namingPatternBuckets
        ++ complexityBuckets ++ uniformityBuckets) ->
  round2 v = v.
Proof.
  simpl. intros H.
  repeat (destruct H as [<-|H]; [vm_compute; reflexivity|]).
  destruct H.
Qed.

Lemma analysisDetails_extract (code language : jsstring) :
  analysisDetails (analyzeCode code language) = extract code.
Proof.
  { pose proof (extract_bucketed code) as (H1 & H2 & H3 & H4 & H5).
    unfold analyzeCode. cbv zeta. cbn [analysisDetails].
    destruct (extract code) as [a b c d e].
    cbn [commentDensity codeStructureScore namingPatternScore complexityScore
         uniformityScore] in *.
    rewrite !round2_bucket; [reflexivity| | | | |];
      rewrite !in_app_iff; auto 10. }
Qed.

(** X4. The analysisDetails of the result are the five scores themselves:
    rounding to two decimals changes none of them, and each is a value
    of its bucket set. *)
Theorem analysisDetails_are_the_scores (code language : jsstring) :
  analysisDetails (analyzeCode code language) = extract code
  /\ bucketed (analysisDetails (analyzeCode code language)).
Proof.
  rewrite analysisDetails_extract. split; [reflexivity|].
  apply extract_bucketed.
Qed.

Lemma confidence_range_on_buckets (s : Scores) :
  bucketed s ->
  le 56.79 (round2 (calculateConfidence s)) = true
  /\ le (round2 (calculateConfidence s)) 96.33 = true.
Proof.
  revert s. apply bucketed_cases.
  unfold commentDensityBuckets, codeStructureBuckets, namingPatternBuckets,
    complexityBuckets, uniformityBuckets.
  intros ? ? ? ? ? Ha Hb Hc Hd He. simpl in Ha, Hb, Hc, Hd, He.
  repeat match goal with
         | H : _ \/ _ |- _ => destruct H as [H | H]
         | H : False |- _ => destruct H
         | H : _ = ?x |- _ => is_var x; subst x
         end; vm_compute; split; reflexivity.
Qed.

(** X5. For every input the confidenceScore lies between 56.79 and 96.33:
    the five scores never agree fully, and never disagree enough for the
    floor of 50 to apply. *)
Theorem confidence_range (code language : jsstring) :
  le 56.79 (confidenceScore (analyzeCode code language)) = true
  /\ le (confidenceScore (analyzeCode code language)) 96.33 = true.
Proof.
  unfold analyzeCode. cbv zeta. cbn [confidenceScore].
  apply confidence_range_on_buckets, extract_bucketed.
Qed.

(** X8. The structure score counts the three checks: 70 when consistent
    indentation, proper spacing and logical blocks all hold, 50 when
    exactly two of them hold, 30 when at most one holds. *)
Theorem analyzeCodeStructure_counts (code : jsstring) :
  let holds (b : bool) := if b then 1%nat else 0%nat in
  let n := (holds (checkIndentation code) + holds (checkSpacing code)
            + holds (checkLogicalBlocks code))%nat in
  analyzeCodeStructure code
  = if (n =? 3)%nat then 70 else if (n =? 2)%nat then 50 else 30.
Proof.
  unfold analyzeCodeStructure. cbv zeta.
  destruct (checkIndentation code), (checkSpacing code),
    (checkLogicalBlocks code); vm_compute; reflexivity.
Qed.

Ltac scores_differ H :=
  first
    [ apply (f_equal (fun s => Prim2SF (commentDensity s))) in H;
      vm_compute in H; discriminate H
    | apply (f_equal (fun s => Prim2SF (codeStructureScore s))) in H;
      vm_compute in H; discriminate H
    | apply (f_equal (fun s => Prim2SF (namingPatternScore s))) in H;
      vm_compute in H; discriminate H
    | apply (f_equal (fun s => Prim2SF (complexityScore s))) in H;
      vm_compute in H; discriminate H
    | apply (f_equal (fun s => Prim2SF (uniformityScore s))) in H;
      vm_compute in H; discriminate H ].

Lemma red_on_buckets (s : Scores) :
  bucketed s ->
  (HistoryPanel.getProbabilityColor (round2 (calculateAIProbability s))
   = "text-red-600 bg-red-100"%string
   <-> s = topScores)
  /\ (HistoryPanel.getProbabilityColor (round2 (calculateAIProbability s))
      = "text-green-600 bg-green-100"%string
      <-> lt (round2 (calculateAIProbability s)) 40 = true).
Proof.
  revert s. apply bucketed_cases.
  unfold commentDensityBuckets, codeStructureBuckets, namingPatternBuckets,
    complexityBuckets, uniformityBuckets.
  intros ? ? ? ? ? Ha Hb Hc Hd He. simpl in Ha, Hb, Hc, Hd, He.
  repeat match goal with
         | H : _ \/ _ |- _ => destruct H as [H | H]
         | H : False |- _ => destruct H
         | H : _ = ?x |- _ => is_var x; subst x
         end;
    (split; split; intros H;
     first [ vm_compute; reflexivity
           | vm_compute in H; discriminate H
           | scores_differ H ]).
Qed.

(** X18. The history badge of an analysis is red exactly when the five
    scores are the highest of their bucket sets (75, 70, 65, 70, 75),
    and green exactly when the aiProbability is below 40. *)
Theorem badge_colors (code language : jsstring) :
  let p := aiProbability (analyzeCode code language) in
  (HistoryPanel.getProbabilityColor p = "text-red-600 bg-red-100"%string
   <-> extract code = topScores)
  /\ (HistoryPanel.getProbabilityColor p = "text-green-600 bg-green-100"%string
      <-> lt p 40 = true).
Proof.
  unfold analyzeCode. cbv zeta. cbn [aiProbability].
  apply red_on_buckets, extract_bucketed.
Qed.

(** X19. What the editor submits is never blank: the call is made only when
    the trimmed code is not empty, with the code and the language as
    typed and a file name that is never empty (untitled.js when none was
    given); the commentDensity of such a submission is 20, 50 or 75. *)
Theorem handleSubmit_never_blank
    (code language fileName c l f : jsstring) :
  CodeEditor.handleSubmit code language fileName = Some (c, l, f) ->
  c = code /\ l = language /\ f <> [] /\ JsString.trim c <> []
  /\ In (commentDensity (analysisDetails (analyzeCode c l))) [20; 50; 75].
Proof.
  unfold CodeEditor.handleSubmit.
  destruct (JsString.trim code) as [|x t] eqn:T; cbn [CodeEditor.truthy];
    [discriminate|].
  intros H. injection H as <- <- <-.
  repeat split.
  - destruct fileName; cbn; discriminate.
  - rewrite T. discriminate.
  - rewrite analysisDetails_extract. cbn [extract commentDensity].
    destruct (commentDensity_cases code) as [[Z _] [H0|H0]].
    + rewrite (Z H0) in T. discriminate.
    + exact H0.
Qed.

Lemma handleSubmit_never_blank_witness :
  In (commentDensity
        (analysisDetails (analyzeCode Inputs.tenLines Inputs.javascript)))
     [20; 50; 75].
Proof.
  apply (handleSubmit_never_blank Inputs.tenLines Inputs.javascript []
           Inputs.tenLines Inputs.javascript (u16 "untitled.js")).
  reflexivity.
Defined.

End BlankInput.

(* ================================================================== *)
(** * Further properties: the pattern analyzer *)
(* ================================================================== *)

Section PatternFacts.

Import PatternAnalyzer Observe Catalog.

Lemma Sublist_app {A : Type} (l m l' m' : list A) :
  Sublist l m -> Sublist l' m' -> Sublist (l ++ l') (m ++ m').
Proof.
  intros H H'. induction H; cbn; [assumption| |]; constructor; assumption.
Qed.

Lemma Sublist_map {A B : Type} (f : A -> B) (l m : list A) :
  Sublist l m -> Sublist (map f l) (map f m).
Proof. induction 1; cbn; constructor; assumption. Qed.

Lemma Sublist_length {A : Type} (l m : list A) :
  Sublist l m -> List.length l <= List.length m.
Proof. induction 1; cbn; lia. Qed.

Lemma Sublist_In {A : Type} (l m : list A) (x : A) :
  Sublist l m -> In x l -> In x m.
Proof.
  induction 1; cbn; [tauto|auto|].
  intros [E|H1]; auto.
Qed.

Lemma Sublist_NoDup {A : Type} (l m : list A) :
  Sublist l m -> NoDup m -> NoDup l.
Proof.
  induction 1; intros N; [constructor| |].
  - inversion N; auto.
  - inversion N as [|? ? Hx Hm]; subst. constructor; [|auto].
    intros Hin. apply Hx. apply (Sublist_In l m); assumption.
Qed.

Lemma Sublist_existsb {A : Type} (f : A -> bool) (l m : list A) :
  Sublist l m -> existsb f m = false -> existsb f l = false.
Proof.
  induction 1; cbn; [reflexivity| |]; intros H0;
    apply orb_false_elim in H0; destruct H0 as [H1 H2]; auto.
  rewrite H1. cbn. auto.
Qed.

Lemma existsb_filter_nil {A : Type} (f : A -> bool) (l : list A) :
  existsb f l = false -> filter f l = [].
Proof.
  induction l as [|x l IH]; cbn; [reflexivity|].
  destruct (f x); cbn; [discriminate|exact IH].
Qed.

Lemma existsb_named (name : string) (l : list CodePattern) :
  existsb (named name) l = existsb (entryNamed name) (map patternEntry l).
Proof. induction l as [|p l IH]; cbn; [reflexivity|]. rewrite IH. reflexivity. Qed.

Ltac pick_entries :=
  repeat first [apply Sublist_take | apply Sublist_skip | apply Sublist_nil].

Lemma ai_entries (code : jsstring) :
  Sublist (map patternEntry (detectAIPatterns code)) aiEntries.
Proof.
  unfold detectAIPatterns. cbv zeta.
  destruct (gt _ _);
    destruct (forallb evenIndent _ && _);
    destruct (5 <? _); cbn [app map]; pick_entries.
Qed.

Lemma style_entries (code : jsstring) :
  Sublist (map patternEntry (detectStylePatterns code)) styleEntries.
Proof.
  unfold detectStylePatterns. cbv zeta.
  destruct (0 <? _); destruct (test _ _ _); cbn [app map]; pick_entries.
Qed.

Lemma complexity_entries (code : jsstring) :
  Sublist (map patternEntry (detectComplexityPatterns code)) complexityEntries.
Proof.
  unfold detectComplexityPatterns. cbv zeta.
  destruct (matchGlobal false nestedBlocksPattern code) as [found|];
    [destruct (3 <? _)|];
    (destruct (matchGlobal false functionHeader code) as [found'|];
     [destruct (10 <? _)|]);
    destruct (0 <? _); cbn [app map]; pick_entries.
Qed.

Lemma security_entries (code : jsstring) :
  Sublist (map patternEntry (detectSecurityPatterns code)) securityEntries.
Proof.
  unfold detectSecurityPatterns. cbv zeta.
  destruct (test true hardcodedSecrets code);
    destruct (test true sqlInjection code);
    destruct (test false evalUsage code); cbn [app map]; pick_entries.
Qed.

Lemma detectPatterns_groups (code language : jsstring) :
  detectPatterns code language
  = detectAIPatterns code ++ detectStylePatterns code
    ++ detectComplexityPatterns code ++ detectSecurityPatterns code.
Proof.
  unfold detectPatterns. cbv zeta. cbn [app]. rewrite <- !app_assoc.
  reflexivity.
Qed.

(** X9. Whatever the input, the patterns are taken from a fixed catalogue
    of eleven, in its order (AI indicators, style, complexity, security):
    type, name, severity and description of a pattern never depend on the
    input, no name is reported twice, and at most eleven are reported. *)
Theorem patterns_from_catalog (code language : jsstring) :
  let found := detectPatterns code language in
  Sublist (map patternEntry found) patternCatalog
  /\ NoDup (map patternName found)
  /\ List.length found <= 11.
Proof.
  cbv zeta.
  assert (S : Sublist (map patternEntry (detectPatterns code language))
                patternCatalog).
  { rewrite detectPatterns_groups, !map_app. unfold patternCatalog.
    repeat apply Sublist_app.
    - apply ai_entries.
    - apply style_entries.
    - apply complexity_entries.
    - apply security_entries. }
  split; [exact S|]. split.
  - replace (map patternName (detectPatterns code language))
      with (map CodeAnalysisService.name
              (map patternEntry (detectPatterns code language)))
      by (rewrite map_map; reflexivity).
    apply (Sublist_NoDup _ (map CodeAnalysisService.name patternCatalog)).
    + apply Sublist_map, S.
    + cbn. repeat constructor; cbn; intuition discriminate.
  - apply Sublist_length in S. rewrite length_map in S. exact S.
Qed.

(** A name that a group does not list is not reported by the group. *)
Lemma absent_name (name : string) (l : list CodePattern)
    (entries : list CodeAnalysisService.PatternEntry) :
  Sublist (map patternEntry l) entries ->
  existsb (entryNamed name) entries = false ->
  existsb (named name) l = false.
Proof.
  intros S E. rewrite existsb_named. apply (Sublist_existsb _ _ _ S E).
Qed.

Lemma long_positions (lines : list jsstring) (k : nat) :
  map (fun '(_, idx) => idx)
      (filter (fun '(line, idx) => 120 <? JsString.length line)
              (map (fun '(line, idx) => (line, idx + 1)) (indexedFrom k lines)))
  = longPositionsFrom (k + 1) lines.
Proof.
  revert k. induction lines as [|line lines IH]; intros k;
    cbn [indexedFrom map filter longPositionsFrom]; [reflexivity|].
  destruct (120 <? JsString.length line); cbn [map]; rewrite IH; reflexivity.
Qed.

Lemma long_positions_spec (lines : list jsstring) :
  forall k n,
    In n (longPositionsFrom k lines)
    <-> exists i line,
        nth_error lines i = Some line /\ n = k + i
        /\ 120 < JsString.length line.
Proof.
  induction lines as [|l lines IH]; intros k n; cbn [longPositionsFrom].
  - split; [intros []|]. intros (i & line & H & _). destruct i; discriminate.
  - assert (R : In n (longPositionsFrom (S k) lines)
                <-> exists i line, nth_error lines i = Some line
                                   /\ n = k + S i
                                   /\ 120 < JsString.length line).
    { rewrite IH. split; intros (i & line & H1 & H2 & H3);
        exists i, line; repeat split; auto; lia. }
    destruct (120 <? JsString.length l) eqn:E.
    + cbn [In]. rewrite R. split.
      * intros [<-|(i & line & H1 & H2 & H3)].
        -- exists 0, l. apply Nat.ltb_lt in E. repeat split; auto.
        -- exists (S i), line. auto.
      * intros (i & line & H1 & H2 & H3). destruct i as [|i].
        -- left. lia.
        -- right. exists i, line. auto.
    + rewrite R. split.
      * intros (i & line & H1 & H2 & H3). exists (S i), line. auto.
      * intros (i & line & H1 & H2 & H3). destruct i as [|i].
        -- cbn in H1. injection H1 as ->. apply Nat.ltb_lt in H3. congruence.
        -- exists i, line. auto.
Qed.

Lemma long_lines_in_style (code : jsstring) :
  filter (named "Long Lines") (detectStylePatterns code)
  = match longPositionsFrom 1 (JsString.split_nl code) with
    | [] => []
    | ns => [longLines ns]
    end.
Proof.
  unfold detectStylePatterns. cbv zeta.
  rewrite <- (length_map (fun '(_, idx) => idx)
                (filter _ (map _ (indexed (JsString.split_nl code))))).
  unfold indexed. rewrite (long_positions (JsString.split_nl code) 0).
  cbn [Nat.add].
  destruct (longPositionsFrom 1 (JsString.split_nl code)) as [|n ns];
    cbn [List.length Nat.ltb Nat.leb];
    destruct (test false inconsistentSpacing code); reflexivity.
Qed.

(** X11. The line numbers of the Long Lines pattern are exactly the
    positions, counted from 1, of the lines of more than 120 code units,
    in increasing order; the pattern is reported once when there is such
    a line and not otherwise. *)
Theorem long_lines_rule (code language : jsstring) :
  let lines := JsString.split_nl code in
  filter (named "Long Lines") (detectPatterns code language)
  = match longPositionsFrom 1 lines with
    | [] => []
    | ns => [longLines ns]
    end
  /\ forall n,
      In n (longPositionsFrom 1 lines)
      <-> exists line,
          1 <= n /\ nth_error lines (n - 1) = Some line
          /\ 120 < JsString.length line.
Proof.
  cbv zeta. split.
  - rewrite detectPatterns_groups, !filter_app.
    rewrite (existsb_filter_nil _ (detectAIPatterns code))
      by (apply (absent_name _ _ _ (ai_entries code)); reflexivity).
    rewrite (existsb_filter_nil _ (detectComplexityPatterns code))
      by (apply (absent_name _ _ _ (complexity_entries code)); reflexivity).
    rewrite (existsb_filter_nil _ (detectSecurityPatterns code))
      by (apply (absent_name _ _ _ (security_entries code)); reflexivity).
    cbn [app]. rewrite app_nil_r. apply long_lines_in_style.
  - intros n. rewrite long_positions_spec. split.
    + intros (i & line & H1 & H2 & H3). exists line.
      replace (n - 1) with i by lia. repeat split; auto; lia.
    + intros (line & H1 & H2 & H3). exists (n - 1), line.
      repeat split; auto; lia.
Qed.

Lemma scanLine_invariant (st : Scan) (line : jsstring) (idx : nat) :
  scanInvariant st idx -> scanInvariant (scanLine st line idx) (S idx).
Proof.
  intros (Hout & Hlate & Hfs).
  assert (Hout' : Forall (fun n => 1 <= n <= S idx) (lineNumbersOut st)).
  { eapply Forall_impl; [|exact Hout]. cbn. intros; lia. }
  assert (Hlate' : lineNumbersOut st = [] \/ 50 < S idx)
    by (destruct Hlate; [left; assumption|right; lia]).
  unfold scanLine.
  set (st1 := if isHeader line then _ else st).
  assert (I1 : lineNumbersOut st1 = lineNumbersOut st
               /\ (inFunction st1 = true -> 1 <= functionStart st1 <= S idx)).
  { unfold st1. destruct (isHeader line); cbn.
    - split; [reflexivity|]. intros _. lia.
    - split; [reflexivity|]. intros H. specialize (Hfs H). lia. }
  destruct I1 as (E1 & F1).
  destruct (inFunction st1) eqn:In1.
  - specialize (F1 eq_refl).
    destruct ((_ =? 0)%Z && JsString.includes _ _).
    + unfold scanInvariant. cbn [lineNumbersOut inFunction functionStart].
      destruct (50 <? _)%Z eqn:L.
      * apply Z.ltb_lt in L. rewrite E1. unfold pushRange.
        repeat split.
        -- apply Forall_app. split; [assumption|].
           apply Forall_forall. intros n Hn. apply in_seq in Hn. lia.
        -- right. lia.
        -- discriminate.
        -- discriminate.
      * rewrite E1. repeat split; auto; discriminate.
    + unfold scanInvariant. cbn [lineNumbersOut inFunction functionStart].
      rewrite E1. repeat split; auto; lia.
  - unfold scanInvariant. rewrite E1, In1. repeat split; auto; discriminate.
Qed.

Lemma scanLines_invariant (lines : list jsstring) :
  forall st idx,
    scanInvariant st idx ->
    scanInvariant (scanLines st idx lines) (idx + List.length lines).
Proof.
  induction lines as [|line lines IH]; intros st idx I; cbn [scanLines List.length].
  - rewrite Nat.add_0_r. exact I.
  - replace (idx + S (List.length lines)) with (S idx + List.length lines) by lia.
    apply IH, scanLine_invariant, I.
Qed.

Lemma findLongFunctions_bounds (lines : list jsstring) :
  Forall (fun n => 1 <= n <= List.length lines) (findLongFunctions lines)
  /\ (findLongFunctions lines = [] \/ 50 < List.length lines).
Proof.
  unfold findLongFunctions.
  destruct (scanLines_invariant lines
              {| lineNumbersOut := []; inFunction := false;
                 functionStart := 0; braceCount := 0 |} 0) as (H1 & H2 & _).
  - unfold scanInvariant. cbn. repeat split; auto. discriminate.
  - cbn [Nat.add] in *. auto.
Qed.

(** X12. The Long Function pattern only lists lines of the text (numbers
    from 1 to the number of lines), and a text of at most 50 lines never
    gets the pattern. *)
Theorem long_function_within_text (code language : jsstring) :
  let lines := JsString.split_nl code in
  let reported := filter (named "Long Function") (detectPatterns code language) in
  Forall (fun p => Forall (fun n => 1 <= n <= List.length lines) (lineNumbers p))
         reported
  /\ (reported = [] \/ 50 < List.length lines).
Proof.
  cbv zeta. rewrite long_function_rule. cbv zeta.
  destruct (findLongFunctions_bounds (JsString.split_nl code)) as [B [E|L]].
  - rewrite E. cbn. auto.
  - destruct (0 <? _); [|auto]. split; [|auto].
    constructor; [exact B|constructor].
Qed.

Lemma long_lines_present (lines : list jsstring) (k : nat) :
  (0 <? List.length
          (filter (fun '(line, idx) => 120 <? JsString.length line)
                  (map (fun '(line, idx) => (line, idx + 1))
                       (indexedFrom k lines))))
  = existsb (fun line => 120 <? JsString.length line) lines.
Proof.
  revert k. induction lines as [|line lines IH]; intros k;
    cbn [indexedFrom map filter existsb]; [reflexivity|].
  destruct (120 <? JsString.length line); cbn [orb]; [reflexivity|apply IH].
Qed.

Lemma emitsPattern_long_lines (code language : jsstring) :
  emitsPattern "Long Lines" code language
  = existsb (fun line => 120 <? JsString.length line) (JsString.split_nl code).
Proof.
  unfold emitsPattern. rewrite detectPatterns_groups, !existsb_app.
  rewrite (absent_name _ _ _ (ai_entries code)) by reflexivity.
  rewrite (absent_name _ _ _ (complexity_entries code)) by reflexivity.
  rewrite (absent_name _ _ _ (security_entries code)) by reflexivity.
  cbn [orb]. rewrite orb_false_r.
  unfold detectStylePatterns. cbv zeta. unfold indexed.
  rewrite long_lines_present.
  destruct (existsb _ (JsString.split_nl code));
    destruct (test false inconsistentSpacing code); reflexivity.
Qed.

Lemma emitsPattern_eval (code language : jsstring) :
  emitsPattern "Eval Usage" code language = test false evalUsage code.
Proof.
  unfold emitsPattern. rewrite detectPatterns_groups, !existsb_app.
  rewrite (absent_name _ _ _ (ai_entries code)) by reflexivity.
  rewrite (absent_name _ _ _ (style_entries code)) by reflexivity.
  rewrite (absent_name _ _ _ (complexity_entries code)) by reflexivity.
  cbn [orb].
  unfold detectSecurityPatterns. cbv zeta.
  destruct (test true hardcodedSecrets code);
    destruct (test true sqlInjection code);
    destruct (test false evalUsage code); reflexivity.
Qed.

End PatternFacts.

(* ================================================================== *)
(** * Further properties: the suggestion generator and the coordinator *)
(* ================================================================== *)

Section SuggestionFacts.

Import SuggestionGenerator Observe Catalog.

Ltac pick_templates :=
  repeat first [apply Sublist_take | apply Sublist_skip | apply Sublist_nil].

Lemma refactoring_templates (code : jsstring)
    (found : list DeveloperSuggestion) :
  generateRefactoringSuggestions code = Normal found ->
  Sublist found refactoringTemplates.
Proof.
  unfold generateRefactoringSuggestions. cbv zeta.
  destruct (JsString.includes code (u16 "if"));
    [destruct (matchGlobal false ifOpen code); cbn [bind lengthOfNonNull];
     [|discriminate]|cbn [bind]];
    destruct (JsString.includes code (u16 "function") && _);
    (destruct (matchGlobal false duplicatePattern code);
     [destruct (2 <? _)|]);
    try destruct (5 <? _);
    intros R; injection R as <-; cbn [app]; pick_templates.
Qed.

Lemma security_templates (code : jsstring) :
  Sublist (generateSecuritySuggestions code) securityTemplates.
Proof.
  unfold generateSecuritySuggestions. cbv zeta.
  destruct (test true hardcodedSecrets code);
    destruct (test false PatternAnalyzer.evalUsage code);
    destruct (test false innerHTMLAssign code); cbn [app]; pick_templates.
Qed.

Lemma performance_templates (code : jsstring) :
  Sublist (generatePerformanceSuggestions code) performanceTemplates.
Proof.
  unfold generatePerformanceSuggestions. cbv zeta.
  destruct (test false nestedLoop code);
    destruct (test false mapFilter code);
    destruct (test false domQuery code && _); cbn [app]; pick_templates.
Qed.

Lemma style_templates (code : jsstring) :
  Sublist (generateStyleSuggestions code) styleTemplates.
Proof.
  unfold generateStyleSuggestions. cbv zeta.
  destruct (test false varDecl code);
    (destruct (test false functionOpen code);
     [destruct (matchGlobal false shortFunction code);
      [destruct (0 <? _)|]|]);
    destruct (existsb _ (JsString.split_nl code)); cbn [app]; pick_templates.
Qed.

Lemma generateSuggestions_groups (code language : jsstring)
    (found : list DeveloperSuggestion) :
  generateSuggestions code language = Normal found ->
  exists refactoring,
    generateRefactoringSuggestions code = Normal refactoring
    /\ found = refactoring ++ generateSecuritySuggestions code
               ++ generatePerformanceSuggestions code
               ++ generateStyleSuggestions code.
Proof.
  unfold generateSuggestions. cbv zeta.
  destruct (generateRefactoringSuggestions code) as [refactoring|e];
    cbn [bind app]; [|discriminate].
  intros H. injection H as <-. exists refactoring.
  split; [reflexivity|]. rewrite <- !app_assoc. reflexivity.
Qed.

Lemma suggestions_sublist (code language : jsstring)
    (found : list DeveloperSuggestion) :
  generateSuggestions code language = Normal found ->
  Sublist found suggestionCatalog.
Proof.
  intros H. apply generateSuggestions_groups in H.
  destruct H as (refactoring & R & ->). unfold suggestionCatalog.
  repeat apply Sublist_app.
  - apply (refactoring_templates code), R.
  - apply security_templates.
  - apply performance_templates.
  - apply style_templates.
Qed.

(** X10. When the suggestion generator returns, its suggestions are taken
    from a fixed catalogue of twelve, in its order (refactor, security,
    performance, style): every field of a suggestion, the code snippet
    included, is a constant of the catalogue and never derived from the
    input; no title is suggested twice and at most twelve are returned. *)
Theorem suggestions_from_catalog (code language : jsstring)
    (found : list DeveloperSuggestion) :
  generateSuggestions code language = Normal found ->
  Sublist found suggestionCatalog
  /\ NoDup (map title found)
  /\ List.length found <= 12.
Proof.
  intros H. pose proof (suggestions_sublist code language found H) as S.
  split; [exact S|]. split.
  - apply (Sublist_NoDup _ (map title suggestionCatalog)).
    + apply Sublist_map, S.
    + cbn. repeat constructor; cbn; intuition discriminate.
  - apply Sublist_length in S. exact S.
Qed.

Lemma suggestions_from_catalog_witness :
  Sublist [removeHardcodedCredentials] suggestionCatalog.
Proof.
  apply (suggestions_from_catalog Inputs.passwordAssignment Inputs.javascript
           [removeHardcodedCredentials]).
  vm_compute. reflexivity.
Defined.

(** A title that is no refactoring title is looked up in the three other
    groups. *)
Lemma titled_in_groups (code language : jsstring)
    (found : list DeveloperSuggestion) (t : string) :
  generateSuggestions code language = Normal found ->
  existsb (titled t) refactoringTemplates = false ->
  existsb (titled t) found
  = existsb (titled t) (generateSecuritySuggestions code)
    || existsb (titled t) (generatePerformanceSuggestions code)
    || existsb (titled t) (generateStyleSuggestions code).
Proof.
  intros H E. apply generateSuggestions_groups in H.
  destruct H as (refactoring & R & ->).
  rewrite !existsb_app.
  rewrite (Sublist_existsb _ _ _ (refactoring_templates code refactoring R) E).
  cbn [orb]. rewrite !orb_assoc. reflexivity.
Qed.

Ltac other_groups :=
  rewrite ?(Sublist_existsb _ _ _ (security_templates _)) by reflexivity;
  rewrite ?(Sublist_existsb _ _ _ (performance_templates _)) by reflexivity;
  rewrite ?(Sublist_existsb _ _ _ (style_templates _)) by reflexivity;
  cbn [andb orb]; rewrite ?orb_false_r.

Lemma line_length_in_style (code : jsstring) :
  existsb (titled "Line Length") (generateStyleSuggestions code)
  = existsb (fun line => 120 <? JsString.length line) (JsString.split_nl code).
Proof.
  unfold generateStyleSuggestions. cbv zeta.
  destruct (test false varDecl code);
    (destruct (test false functionOpen code);
     [destruct (matchGlobal false shortFunction code);
      [destruct (0 <? _)|]|]);
    destruct (existsb _ (JsString.split_nl code)); reflexivity.
Qed.

(** X13. When the suggestion generator returns, it suggests Line Length
    exactly when the pattern analyzer reports Long Lines: both look for a
    line of more than 120 code units. *)
Theorem line_length_iff_long_lines (code language : jsstring)
    (found : list DeveloperSuggestion) :
  generateSuggestions code language = Normal found ->
  existsb (titled "Line Length") found
  = emitsPattern "Long Lines" code language.
Proof.
  intros H.
  rewrite (titled_in_groups code language found "Line Length" H eq_refl).
  other_groups.
  rewrite line_length_in_style, emitsPattern_long_lines. reflexivity.
Qed.

Lemma line_length_iff_long_lines_witness :
  existsb (titled "Line Length") [lineLength]
  = emitsPattern "Long Lines" Inputs.longLineFirst Inputs.javascript.
Proof.
  apply (line_length_iff_long_lines Inputs.longLineFirst Inputs.javascript).
  vm_compute. reflexivity.
Defined.

Lemma avoid_eval_in_security (code : jsstring) :
  existsb (titled "Avoid eval()") (generateSecuritySuggestions code)
  = test false PatternAnalyzer.evalUsage code.
Proof.
  unfold generateSecuritySuggestions. cbv zeta.
  destruct (test true hardcodedSecrets code);
    destruct (test false PatternAnalyzer.evalUsage code);
    destruct (test false innerHTMLAssign code); reflexivity.
Qed.

(** X14. When the suggestion generator returns, it suggests Avoid eval()
    exactly when the pattern analyzer reports Eval Usage. *)
Theorem avoid_eval_iff_eval_usage (code language : jsstring)
    (found : list DeveloperSuggestion) :
  generateSuggestions code language = Normal found ->
  existsb (titled "Avoid eval()") found
  = emitsPattern "Eval Usage" code language.
Proof.
  intros H.
  rewrite (titled_in_groups code language found "Avoid eval()" H eq_refl).
  other_groups.
  rewrite avoid_eval_in_security, emitsPattern_eval. reflexivity.
Qed.

Lemma avoid_eval_iff_eval_usage_witness :
  existsb (titled "Avoid eval()") [avoidEval]
  = emitsPattern "Eval Usage" (u16 "eval (input)") Inputs.javascript.
Proof.
  apply (avoid_eval_iff_eval_usage (u16 "eval (input)") Inputs.javascript).
  vm_compute. reflexivity.
Defined.




Lemma arrow_in_style (code : jsstring) :
  existsb (titled "Consider Arrow Functions") (generateStyleSuggestions code)
  = test false shortFunction code.
Proof.
  unfold generateStyleSuggestions. cbv zeta.
  pose proof (test_prefix false functionOpen
                (Seq (between 0 50 (noneOf [125%N])) (Str "}")) code) as P.
  change (Seq functionOpen (Seq (between 0 50 (noneOf [125%N])) (Str "}")))
    with shortFunction in P.
  pose proof (matchGlobal_test false shortFunction code) as [G1 G2].
  destruct (test false shortFunction code) eqn:T.
  - rewrite (P eq_refl).
    destruct (matchGlobal false shortFunction code) as [ms|] eqn:M;
      [|specialize (G1 eq_refl); discriminate].
    assert (L : (0 <? List.length ms) = true).
    { unfold matchGlobal in M.
      destruct (matchAll false shortFunction code); [discriminate|].
      injection M as <-. reflexivity. }
    rewrite L.
    destruct (test false varDecl code);
      destruct (existsb _ (JsString.split_nl code)); reflexivity.
  - rewrite (G2 eq_refl).
    destruct (test false varDecl code);
      destruct (test false functionOpen code);
      destruct (existsb _ (JsString.split_nl code)); reflexivity.
Qed.

(** X16. When the suggestion generator returns, it suggests Consider
    Arrow Functions exactly when the text contains a function declaration
    whose body has at most fifty code units and no closing brace inside;
    the preliminary test for a function declaration changes nothing. *)
Theorem arrow_functions_rule (code language : jsstring)
    (found : list DeveloperSuggestion) :
  generateSuggestions code language = Normal found ->
  existsb (titled "Consider Arrow Functions") found
  = test false shortFunction code.
Proof.
  intros H.
  rewrite (titled_in_groups code language found "Consider Arrow Functions" H eq_refl).
  other_groups. apply arrow_in_style.
Qed.

Lemma arrow_functions_rule_witness :
  existsb (titled "Consider Arrow Functions") [considerArrowFunctions]
  = test false shortFunction (u16 "function add(a, b) { return a + b; }").
Proof.
  apply (arrow_functions_rule (u16 "function add(a, b) { return a + b; }")
           Inputs.javascript).
  vm_compute. reflexivity.
Defined.

Lemma generateSuggestions_outcome (code language : jsstring) :
  completesNormally (generateSuggestions code language)
  = negb (JsString.includes code (u16 "if")) || test false ifOpen code.
Proof.
  unfold generateSuggestions, generateRefactoringSuggestions. cbv zeta.
  pose proof (matchGlobal_test false ifOpen code) as [G1 G2].
  destruct (JsString.includes code (u16 "if")); cbn [negb orb bind].
  - destruct (matchGlobal false ifOpen code) eqn:M;
      cbn [bind lengthOfNonNull completesNormally].
    + destruct (test false ifOpen code); [reflexivity|].
      specialize (G2 eq_refl). discriminate.
    + rewrite (G1 eq_refl). reflexivity.
  - reflexivity.
Qed.

(** X1. The suggestion generator throws exactly on the texts that contain
    the letters if without any conditional opening (if, optional white
    space, an opening parenthesis); on every other text it returns. *)
Theorem suggestion_generator_throws_exactly (code language : jsstring) :
  completesNormally (generateSuggestions code language) = false
  <-> JsString.includes code (u16 "if") = true
      /\ test false ifOpen code = false.
Proof.
  rewrite generateSuggestions_outcome.
  destruct (JsString.includes code (u16 "if")), (test false ifOpen code);
    cbn; intuition discriminate.
Qed.

(** X2. Whenever the suggestion Remove Hardcoded Credentials is made, the
    pattern Hardcoded Credentials is reported: the names the suggestion
    generator looks for are among those of the pattern analyzer. *)
Theorem credentials_suggestion_has_pattern (code language : jsstring) :
  emitsSuggestion "Remove Hardcoded Credentials" code language = true ->
  emitsPattern "Hardcoded Credentials" code language = true.
Proof. apply credentials_suggestion_implies_pattern. Qed.

Lemma credentials_suggestion_has_pattern_witness :
  emitsPattern "Hardcoded Credentials" Inputs.passwordAssignment
    Inputs.javascript = true.
Proof.
  apply (credentials_suggestion_has_pattern Inputs.passwordAssignment
           Inputs.javascript).
  vm_compute. reflexivity.
Defined.

End SuggestionFacts.

Section CoordinatorOutcomes.

Import CodeAnalysisService.

(** X17. The coordinator returns exactly when the submission is stored
    and the text does not make the suggestion generator throw (it has no
    letters if, or has a conditional opening); when it throws, it has
    sent no detection result, pattern or suggestion to the datastore,
    even though the submission may already be stored. *)
Theorem analyzeCode_outcomes
    (insertSubmission : Submission -> option string)
    (code language fileName userId : jsstring) :
  let run := analyzeCode insertSubmission code language fileName userId in
  let stored :=
    match insertSubmission
            {| user_id := userId; code_content := code;
               language := language; file_name := fileName |} with
    | Some _ => true
    | None => false
    end in
  completesNormally (snd run)
  = stored && (negb (JsString.includes code (u16 "if"))
               || test false SuggestionGenerator.ifOpen code)
  /\ (completesNormally (snd run) = true \/ fst run = []).
Proof.
  cbv zeta. rewrite <- (generateSuggestions_outcome code language).
  unfold analyzeCode.
  destruct (insertSubmission _); cbn [andb].
  - destruct (SuggestionGenerator.generateSuggestions code language);
      cbn; auto.
  - cbn. auto.
Qed.

End CoordinatorOutcomes.

Section DetectionExact.

Import DetectionEngine Buckets.
Local Open Scope float_scope.

(** X3. Floating-point rounding never shows in the results: for every
    input the five scores are integers, aiProbability is the number
    nearest to their exact weighted sum (a multiple of 0.01), and
    confidenceScore is the number nearest to k/100, where k/100 is
    100 - 1.5 sigma rounded to two decimals, a tie going up, for the
    exact population standard deviation sigma of the scores. *)
Theorem results_are_exact (code language : jsstring) :
  let r := analyzeCode code language in
  let s := extract code in
  let k := hundredths (confidenceScore r) in
  map (fun v => ofZ (toZ v)) (values s) = values s
  /\ aiProbability r = ofZ (weightedHundredths s) / 100
  /\ confidenceScore r = ofZ k / 100
  /\ nearestConfidence k (spread s) = true.
Proof.
  destruct (analyzeCode_exact code language) as (H1 & H2 & H3 & H4 & _).
  cbv zeta. auto.
Qed.

End DetectionExact.

(* ================================================================== *)
(** * Further properties: comments seen by two engines *)
(* ================================================================== *)

Section CommentsAcrossEngines.

Import DetectionEngine PatternAnalyzer Observe Catalog.
Local Open Scope float_scope.

Lemma slash_comment_is_comment (line : jsstring) :
  isSlashComment line = true -> isCommentLine line = true.
Proof.
  unfold isSlashComment, isCommentLine. intros H. rewrite H. reflexivity.
Qed.

Lemma comment_is_nonBlank (line : jsstring) :
  isCommentLine line = true -> nonBlank line = true.
Proof.
  unfold isCommentLine, nonBlank, JsString.length.
  destruct (JsString.trim line); [discriminate|reflexivity].
Qed.

Lemma filter_length_impl {A : Type} (f g : A -> bool) (l : list A) :
  (forall x, f x = true -> g x = true) ->
  (List.length (filter f l) <= List.length (filter g l))%nat.
Proof.
  intros Hfg. induction l as [|x l IH]; cbn; [lia|].
  destruct (f x) eqn:F.
  - rewrite (Hfg x F). cbn. lia.
  - destruct (g x); cbn; lia.
Qed.

Lemma filter_length_all {A : Type} (f : A -> bool) (l : list A) :
  (List.length (filter f l) <= List.length l)%nat.
Proof.
  induction l as [|x l IH]; cbn; [lia|]. destruct (f x); cbn; lia.
Qed.

Lemma emitsPattern_excessive (code language : jsstring) :
  let lines := JsString.split_nl code in
  emitsPattern "Excessive Comments" code language
  = gt (ofNat (List.length (filter isSlashComment lines)))
       (ofNat (List.length lines) * 0.3).
Proof.
  cbv zeta. unfold emitsPattern.
  rewrite detectPatterns_groups, !existsb_app.
  rewrite (absent_name _ _ _ (style_entries code)) by reflexivity.
  rewrite (absent_name _ _ _ (complexity_entries code)) by reflexivity.
  rewrite (absent_name _ _ _ (security_entries code)) by reflexivity.
  rewrite !orb_false_r.
  unfold detectAIPatterns. cbv zeta.
  destruct (gt _ _);
    destruct (forallb evenIndent _ && _);
    destruct (5 <? _)%nat; reflexivity.
Qed.

(** X20. On a text of at most 400 lines, whenever the pattern analyzer
    reports Excessive Comments the detection engine scores the comment
    density 75: more than three lines in ten starting with // or /* make
    more than 30 percent of the non-blank lines comments. *)
Theorem excessive_comments_score_75 (code language : jsstring) :
  (List.length (JsString.split_nl code) <= 400)%nat ->
  emitsPattern "Excessive Comments" code language = true ->
  calculateCommentDensity code = 75.
Proof.
  intros Hn He. rewrite emitsPattern_excessive in He. cbv zeta in He.
  pose proof (filter_length_all isSlashComment (JsString.split_nl code)) as L1.
  rewrite excess_comparison_exact in He by assumption.
  apply Nat.ltb_lt in He.
  pose proof (filter_length_impl isSlashComment isCommentLine
                (JsString.split_nl code) slash_comment_is_comment) as L2.
  pose proof (filter_length_impl isCommentLine nonBlank
                (JsString.split_nl code) comment_is_nonBlank) as L3.
  pose proof (filter_length_all nonBlank (JsString.split_nl code)) as L4.
  unfold calculateCommentDensity. cbv zeta.
  set (c := List.length (filter isCommentLine (JsString.split_nl code))) in *.
  set (t := List.length (filter nonBlank (JsString.split_nl code))) in *.
  destruct (t =? 0)%nat eqn:T0; [apply Nat.eqb_eq in T0; lia|].
  apply Nat.eqb_neq in T0.
  destruct (density_comparisons_exact t c) as [G _]; [lia|lia|].
  cbv zeta in G. rewrite G.
  replace (3 * t <? 10 * c)%nat with true
    by (symmetry; apply Nat.ltb_lt; lia).
  reflexivity.
Qed.

Lemma excessive_comments_score_75_witness :
  calculateCommentDensity Inputs.tenLines = 75.
Proof.
  apply (excessive_comments_score_75 Inputs.tenLines Inputs.javascript).
  - vm_compute. lia.
  - vm_compute. reflexivity.
Defined.

End CommentsAcrossEngines.

(* ================================================================== *)
(** * Further properties: small texts and texts without function *)
(* ================================================================== *)

Section SmallTexts.

Import DetectionEngine PatternAnalyzer Observe.

Lemma nodup_length_le (l : list nat) :
  List.length (nodup Nat.eq_dec l) <= List.length l.
Proof.
  induction l as [|x l IH]; cbn; [lia|].
  destruct (in_dec Nat.eq_dec x l); cbn; lia.
Qed.

(** X21. A text with at most six non-blank lines always passes the
    indentation check: it cannot show more than six distinct indentation
    widths. *)
Theorem checkIndentation_small (code : jsstring) :
  List.length (filter nonBlank (JsString.split_nl code)) <= 6 ->
  checkIndentation code = true.
Proof.
  intros H. unfold checkIndentation. cbv zeta. apply Nat.leb_le.
  eapply Nat.le_trans; [apply nodup_length_le|].
  eapply Nat.le_trans; [apply filter_length_all|].
  rewrite length_map. exact H.
Qed.

Lemma checkIndentation_small_witness :
  checkIndentation Inputs.tokenAssignment = true.
Proof.
  apply (checkIndentation_small Inputs.tokenAssignment).
  vm_compute. lia.
Defined.

(** X22. Without a function header (function and a name, or const, a
    name, the equals sign and an opening parenthesis, on one line) the
    scan records nothing and the Long Function pattern is not reported,
    however long the text and whatever its braces. *)
Theorem no_long_function_without_header (code language : jsstring) :
  Forall (fun line => isHeader line = false) (JsString.split_nl code) ->
  findLongFunctions (JsString.split_nl code) = []
  /\ emitsPattern "Long Function" code language = false.
Proof.
  intros H.
  assert (E : findLongFunctions (JsString.split_nl code) = []).
  { unfold findLongFunctions.
    rewrite <- (app_nil_r (JsString.split_nl code)).
    rewrite scanLines_outside by (assumption || reflexivity).
    reflexivity. }
  split; [exact E|].
  unfold emitsPattern.
  destruct (existsb (named "Long Function") (detectPatterns code language))
    eqn:X; [|reflexivity].
  apply existsb_exists in X. destruct X as (p & Hp & Np).
  assert (F : In p (filter (named "Long Function")
                      (detectPatterns code language)))
    by (apply filter_In; auto).
  rewrite long_function_rule in F. cbv zeta in F. rewrite E in F.
  destruct F.
Qed.

Lemma no_long_function_without_header_witness :
  emitsPattern "Long Function" Inputs.tenLines Inputs.javascript = false.
Proof.
  apply (no_long_function_without_header Inputs.tenLines Inputs.javascript).
  assert (B : forallb (fun line => negb (isHeader line))
                (JsString.split_nl Inputs.tenLines) = true)
    by (vm_compute; reflexivity).
  apply Forall_forall. intros line Hl.
  rewrite forallb_forall in B. specialize (B line Hl).
  destruct (isHeader line); [discriminate|reflexivity].
Defined.

End SmallTexts.
